(** * pyspark.ml.image: the image schema accessor

    A shallow embedding of [python/pyspark/ml/image.py] (class
    [_ImageSchema], its singleton [ImageSchema] and the patch that forbids
    further instances), with the properties of the accessor stated and
    proved against it.

    Python values are embedded as Rocq data, exceptions as an explicit
    outcome, the mutable singleton and the py4j gateway as a state that is
    threaded through every call. *)

From Stdlib Require Import ZArith Lia String.
From stdpp Require Import base option list list_numbers strings gmap.

Local Open Scope string_scope.
Local Open Scope Z_scope.

(** ** Python exceptions and results *)

(** The exception classes that the module raises itself or lets through.
    A message is kept where the source (or numpy) gives one. [EngineError]
    stands for whatever the py4j gateway raises for a failed JVM call. *)
Inductive exn : Type :=
| ValueError (msg : string)
| RuntimeError (msg : string)
| KeyError (key : string)
| AttributeError (name : string)
| TypeError
| EngineError (what : string).

(** A call either returns a value or raises. *)
Inductive outcome (A : Type) : Type :=
| Return (a : A)
| Raise (e : exn).
Arguments Return {A} a.
Arguments Raise {A} e.

#[export] Instance outcome_ret : MRet outcome := @Return.
#[export] Instance outcome_bind : MBind outcome := fun A B f m =>
  match m with
  | Return a => f a
  | Raise e => Raise e
  end.

(** ** numpy *)

Module np.

(** What the module observes of an input array: its shape and its items in
    row-major (C) order, which is the order [ravel()] lists them in
    whatever the memory layout is. *)
Record ndarray (T : Type) : Type := mk_ndarray {
  shape : list Z;
  items : list T
}.
Arguments mk_ndarray {T} shape items.
Arguments shape {T}.
Arguments items {T}.

(** [PyArray_MultiplyList]: the number of items a shape holds. *)
Definition size_of (dims : list Z) : Z := foldr Z.mul 1 dims.

(** numpy's own invariant on every array object. *)
Definition well_formed {T} (a : ndarray T) : Prop :=
  Forall (fun d => 0 <= d) (shape a) /\
  Z.of_nat (length (items a)) = size_of (shape a).

Definition ndim {T} (a : ndarray T) : nat := length (shape a).

(** An item type that [astype(dtype=np.uint8)] casts without fail: the
    cast is the dtype's own (for the integer dtypes it wraps modulo 256).
    Arrays whose items numpy may refuse to cast, such as arrays of
    objects, are no instance. *)
Class Dtype (T : Type) : Type := {
  to_uint8 : T -> Z;
  to_uint8_range : forall x, 0 <= to_uint8 x < 256
}.

#[global] Instance int_dtype : Dtype Z.
Proof.
  refine {| to_uint8 := fun x => x `mod` 256 |}.
  intros x. apply Z.mod_pos_bound. lia.
Defined.

Definition astype_uint8 {T} `{Dtype T} (a : ndarray T) : ndarray Z :=
  mk_ndarray (shape a) (to_uint8 <$> items a).

Definition ravel {T} (a : ndarray T) : list T := items a.

(** [bytearray(a)] of a one-dimensional uint8 array: a fresh copy of its
    bytes. *)
Definition bytearray (bytes : list Z) : list Z := bytes.

(** The object [np.ndarray(shape, dtype=np.uint8, buffer, strides)] builds:
    a window on [buffer], which it does not copy. *)
Record view : Type := mk_view {
  v_shape : list Z;
  v_strides : list Z;
  v_buffer : list Z
}.

(** numpy's [offset_bounds_from_strides]: the half-open range of byte
    offsets the window reaches; empty as soon as one dimension is 0. *)
Fixpoint offset_bounds_from_strides
    (itemsize : Z) (dims strides : list Z) (lower upper : Z) : Z * Z :=
  match dims, strides with
  | d :: dims', s :: strides' =>
      if d =? 0 then (0, 0)
      else
        let max_axis_offset := s * (d - 1) in
        if 0 <? max_axis_offset
        then offset_bounds_from_strides itemsize dims' strides' lower (upper + max_axis_offset)
        else offset_bounds_from_strides itemsize dims' strides' (lower + max_axis_offset) upper
  | _, _ => (lower, upper + itemsize)
  end.

(** numpy's [PyArray_CheckStrides]: do the offsets that shape and strides
    reach lie within [numbytes] bytes? A [numbytes] of 0 is read as "as
    many bytes as the shape needs", as the C API documents it. *)
Definition CheckStrides
    (elsize numbytes offset : Z) (dims newstrides : list Z) : bool :=
  let numbytes := if numbytes =? 0 then size_of dims * elsize else numbytes in
  let begin_ := - offset in
  let end_ := numbytes - offset in
  let '(lower_offset, upper_offset) :=
    offset_bounds_from_strides elsize dims newstrides 0 0 in
  negb ((end_ <? upper_offset) || (lower_offset <? begin_)).

(** The constructor [np.ndarray(shape, dtype, buffer, offset, strides)]
    as numpy's [array_new] runs it when buffer and strides are given, for
    [dtype=np.uint8] (item size 1) and offset 0: the strides are checked
    against the length of the buffer, then the dimensions are checked
    while the array object is made. numpy holds dimensions, strides and
    offsets in machine words ([npy_intp]); the integers here are exact,
    so the two agree where every entry of shape and strides and the
    number of bytes the shape needs fit such a word, and statements about
    rows keep to that range. *)
Definition ndarray_uint8 (shape buffer strides : list Z) : outcome view :=
  if negb (length strides =? length shape)%nat then
    Raise (ValueError "strides, if given, must be the same length as shape")
  else if negb (CheckStrides 1 (Z.of_nat (length buffer)) 0 shape strides) then
    Raise (ValueError
      "strides is incompatible with shape of requested array and size of buffer")
  else if existsb (fun d => d <? 0) shape then
    Raise (ValueError "negative dimensions are not allowed")
  else Return (mk_view shape strides buffer).

(** The byte at an offset of the buffer; [None] outside it. *)
Definition peek (buffer : list Z) (off : Z) : option Z :=
  if off <? 0 then None else buffer !! Z.to_nat off.

(** The items of a window in row-major order of their indices. *)
Fixpoint gather (dims strides : list Z) (off : Z) (buffer : list Z)
    : list (option Z) :=
  match dims, strides with
  | d :: dims', s :: strides' =>
      concat ((fun i => gather dims' strides' (off + i * s) buffer) <$> seqZ 0 d)
  | _, _ => [peek buffer off]
  end.

Definition tolist (v : view) : list (option Z) :=
  gather (v_shape v) (v_strides v) 0 (v_buffer v).

(** The array a window shows, when all of it lies inside the buffer. *)
Definition contents (v : view) : option (ndarray Z) :=
  mk_ndarray (v_shape v) <$> mapM id (tolist v).

End np.

(** ** pyspark.sql.types: rows *)

Module types.

(** The values an image row holds. *)
Inductive value : Type :=
| VStr (s : string)
| VInt (n : Z)
| VBytes (b : list Z).

(** Modelled from the spec: [Row] and [_create_row] of pyspark.sql.types
    are imported by the module and not part of it. A row is a tuple of
    values that carries the list of its field names; it is built by
    position, and a field is read by the position of its name. *)
Record Row : Type := mk_Row {
  __fields__ : list string;
  values : list value
}.

Definition _create_row (fields : list string) (vals : list value) : Row :=
  mk_Row fields vals.

(** Modelled from the spec: the position of a name in the list of field
    names ([list.index]), the first one when the name occurs twice. *)
Fixpoint index (item : string) (l : list string) : option nat :=
  match l with
  | [] => None
  | x :: l' => if String.eqb x item then Some 0%nat else S <$> index item l'
  end.

(** Modelled from the spec: the read [row.item] of a field by its name;
    a name the row does not have is an AttributeError. *)
Definition getattr (r : Row) (item : string) : outcome value :=
  match index item (__fields__ r) with
  | None => Raise (AttributeError item)
  | Some idx =>
      match values r !! idx with
      | None => Raise (AttributeError item)
      | Some v => Return v
      end
  end.

End types.

Import types.

(** ** The conversion of a row to an array *)

(** [_ImageSchema.toNDArray]: reads four fields of the row and hands them
    to numpy. The method reads nothing of [self]. *)
Definition toNDArray (image : Row) : outcome np.view :=
  height ← getattr image "height";
  width ← getattr image "width";
  nChannels ← getattr image "nChannels";
  data ← getattr image "data";
  match height, width, nChannels, data with
  | VInt height, VInt width, VInt nChannels, VBytes data =>
      np.ndarray_uint8 [height; width; nChannels] data
                       [width * nChannels; nChannels; 1]
  | _, _, _, _ => Raise TypeError
  end.

(** ** The engine behind the py4j gateway *)

(** A JVM call answers or fails. *)
Inductive reply (A : Type) : Type :=
| Ok (a : A)
| Failed (what : string).
Arguments Ok {A} a.
Arguments Failed {A} what.

(** What the module needs of its surroundings: the routines of
    [org.apache.spark.ml.image.ImageSchema] on the JVM side, each of which
    may change the state of the JVM and may fail, and the schema parser of
    pyspark.sql.types. *)
Class Engine : Type := {
  jvm : Type;
  JavaObject : Type;
  DataType : Type;
  Float : Type;
  jvm_imageSchema : jvm -> reply JavaObject * jvm;
  jvm_json : JavaObject -> jvm -> reply string * jvm;
  jvm_ocvTypes : jvm -> reply (gmap string Z) * jvm;
  jvm_imageFields : jvm -> reply (list string) * jvm;
  jvm_undefinedImageType : jvm -> reply string * jvm;
  jvm_readImages :
    string -> bool -> Z -> bool -> Float -> jvm -> reply JavaObject * jvm;
  _parse_datatype_json_string : string -> outcome DataType
}.

(** The calls that cross the gateway, as a log records them. *)
Inductive jvm_call : Type :=
| call_imageSchema
| call_json
| call_ocvTypes
| call_imageFields
| call_undefinedImageType
| call_readImages.

Section Accessor.
Context {engine : Engine}.

(** The attributes of an instance of [_ImageSchema]; [None] is Python's
    [None]. *)
Record _ImageSchema : Type := mk_ImageSchema {
  _imageSchema : option DataType;
  _ocvTypes : option (gmap string Z);
  _imageFields : option (list string);
  _undefinedImageType : option string
}.

(** The two functions that [_ImageSchema.__init__] is bound to in turn. *)
Inductive init_function : Type :=
| __init__
| _disallow_instance.

(** The state of the process as the module sees it: the active Spark
    context (with the JVM behind it), the module-level singleton, the
    binding of the class's [__init__], and the log of gateway calls. *)
Record world : Type := mk_world {
  _active_spark_context : option jvm;
  ImageSchema : _ImageSchema;
  _ImageSchema__init__ : init_function;
  gateway_log : list jvm_call
}.

(** Statements run in the world and return or raise; the world after a
    raise is the one the statement had reached. *)
Definition M (A : Type) : Type := world -> outcome A * world.

#[export] Instance M_ret : MRet M := fun A a w => (Return a, w).
#[export] Instance M_bind : MBind M := fun A B f m w =>
  match m w with
  | (Return a, w') => f a w'
  | (Raise e, w') => (Raise e, w')
  end.

Definition raise {A} (e : exn) : M A := fun w => (Raise e, w).

Definition lift {A} (o : outcome A) : M A := fun w => (o, w).

Definition self : M _ImageSchema := fun w => (Return (ImageSchema w), w).

Definition setattr (f : _ImageSchema -> _ImageSchema) : M () := fun w =>
  (Return (),
   mk_world (_active_spark_context w) (f (ImageSchema w))
            (_ImageSchema__init__ w) (gateway_log w)).

(** [ctx = SparkContext._active_spark_context] followed by a call
    [ctx._jvm. ... ()]: with no active context [ctx] is [None] and the
    attribute access fails before anything reaches the gateway. *)
Definition py4j {A} (c : jvm_call) (f : jvm -> reply A * jvm) : M A := fun w =>
  match _active_spark_context w with
  | None => (Raise (AttributeError "_jvm"), w)
  | Some j =>
      let '(r, j') := f j in
      let w' := mk_world (Some j') (ImageSchema w) (_ImageSchema__init__ w)
                         (gateway_log w ++ [c]) in
      match r with
      | Ok a => (Return a, w')
      | Failed what => (Raise (EngineError what), w')
      end
  end.

(** [d[key]] on a dict. *)
Definition getitem (d : gmap string Z) (key : string) : M Z :=
  match d !! key with
  | Some v => mret v
  | None => raise (KeyError key)
  end.

(** *** The four metadata properties *)

Definition imageSchema : M DataType :=
  s ← self;
  match _imageSchema s with
  | None =>
      jschema ← py4j call_imageSchema jvm_imageSchema;
      json ← py4j call_json (jvm_json jschema);
      schema ← lift (_parse_datatype_json_string json);
      setattr (fun s => mk_ImageSchema (Some schema) (_ocvTypes s)
                          (_imageFields s) (_undefinedImageType s));;
      mret schema
  | Some schema => mret schema
  end.

Definition ocvTypes : M (gmap string Z) :=
  s ← self;
  match _ocvTypes s with
  | None =>
      types ← py4j call_ocvTypes jvm_ocvTypes;
      setattr (fun s => mk_ImageSchema (_imageSchema s) (Some types)
                          (_imageFields s) (_undefinedImageType s));;
      mret types
  | Some types => mret types
  end.

Definition imageFields : M (list string) :=
  s ← self;
  match _imageFields s with
  | None =>
      fields ← py4j call_imageFields jvm_imageFields;
      setattr (fun s => mk_ImageSchema (_imageSchema s) (_ocvTypes s)
                          (Some fields) (_undefinedImageType s));;
      mret fields
  | Some fields => mret fields
  end.

Definition undefinedImageType : M string :=
  s ← self;
  match _undefinedImageType s with
  | None =>
      name ← py4j call_undefinedImageType jvm_undefinedImageType;
      setattr (fun s => mk_ImageSchema (_imageSchema s) (_ocvTypes s)
                          (_imageFields s) (Some name));;
      mret name
  | Some name => mret name
  end.

(** *** The conversion of an array to a row *)

(** [_ImageSchema.toImage(array, origin="")]; an omitted [origin] is
    [None] here. The Encoding Map is read from the module's singleton
    ([ImageSchema.ocvTypes]) and the field names from [self], which is
    that singleton, the only instance there is; the map is read before the
    channel count is looked at. The last branch of the unpacking cannot be
    reached: the shape of an array of [ndim] 3 has three entries. *)
Definition toImage {T} `{np.Dtype T}
    (array : np.ndarray T) (origin : option string) : M Row :=
  let origin := default "" origin in
  if negb (np.ndim array =? 3)%nat then
    raise (ValueError "Invalid array shape")
  else
    match np.shape array with
    | [height; width; nChannels] =>
        ocvTypes ← ocvTypes;
        mode ← (if nChannels =? 1 then getitem ocvTypes "CV_8UC1"
                else if nChannels =? 3 then getitem ocvTypes "CV_8UC3"
                else if nChannels =? 4 then getitem ocvTypes "CV_8UC4"
                else raise (ValueError "Invalid number of channels"));
        let data := np.bytearray (np.ravel (np.astype_uint8 array)) in
        imageFields ← imageFields;
        mret (_create_row imageFields
                [VStr origin; VInt height; VInt width; VInt nChannels;
                 VInt mode; VBytes data])
    | _ => raise (ValueError "wrong number of values to unpack")
    end.

(** *** The directory scan *)

(** [_ImageSchema.readImages]. With no active context [SparkSession(ctx)]
    fails on [ctx._jsc] before anything reaches the gateway. Otherwise the
    session, the scan and the data frame around its result are the
    engine's work: they are one transition of the JVM here, logged as the
    call of the routine, and the result is the handle the data frame
    wraps. [sampleRatio] is taken as the float it is coerced to. *)
Definition readImages (path : string) (recursive : bool) (numPartitions : Z)
    (dropImageFailures : bool) (sampleRatio : Float) : M JavaObject := fun w =>
  match _active_spark_context w with
  | None => (Raise (AttributeError "_jsc"), w)
  | Some _ =>
      py4j call_readImages
           (jvm_readImages path recursive numPartitions dropImageFailures
                           sampleRatio) w
  end.

(** *** Instances *)

(** Running the function that [__init__] is bound to on a new object. *)
Definition instantiate (init : init_function) : outcome _ImageSchema :=
  match init with
  | __init__ => Return (mk_ImageSchema None None None None)
  | _disallow_instance =>
      Raise (RuntimeError "Creating instance of _ImageSchema class is disallowed.")
  end.

(** The call [_ImageSchema()]. *)
Definition new_ImageSchema : M _ImageSchema := fun w =>
  (instantiate (_ImageSchema__init__ w), w).

(** The three statements at the end of the module, in the order they run
    when the module is imported: the class is defined, the singleton is
    made, and then [__init__] is rebound. *)
Definition import_module (ctx : option jvm) : outcome world :=
  let init := __init__ in
  singleton ← instantiate init;
  let init := _disallow_instance in
  Return (mk_world ctx singleton init []).

(** *** What a caller can do next *)

(** One step of a process that uses the module: any of its operations, or
    a change of the active Spark context. *)
Inductive step : world -> world -> Prop :=
| step_imageSchema w : step w (imageSchema w).2
| step_ocvTypes w : step w (ocvTypes w).2
| step_imageFields w : step w (imageFields w).2
| step_undefinedImageType w : step w (undefinedImageType w).2
| step_toImage {T} `{np.Dtype T} (array : np.ndarray T) origin w :
    step w (toImage array origin w).2
| step_readImages path recursive numPartitions dropImageFailures sampleRatio w :
    step w (readImages path recursive numPartitions dropImageFailures sampleRatio w).2
| step_new w : step w (new_ImageSchema w).2
| step_context ctx w :
    step w (mk_world ctx (ImageSchema w) (_ImageSchema__init__ w) (gateway_log w)).

(** *** The metadata fields as one family *)

Inductive metadata : Type :=
| Schema
| EncodingMap
| FieldNames
| UndefinedMarker.

Definition value_of (f : metadata) : Type :=
  match f with
  | Schema => DataType
  | EncodingMap => gmap string Z
  | FieldNames => list string
  | UndefinedMarker => string
  end.

(** The attribute that caches a field, and the property that reads it. *)
Definition slot (f : metadata) (s : _ImageSchema) : option (value_of f) :=
  match f return option (value_of f) with
  | Schema => _imageSchema s
  | EncodingMap => _ocvTypes s
  | FieldNames => _imageFields s
  | UndefinedMarker => _undefinedImageType s
  end.

Definition read (f : metadata) : M (value_of f) :=
  match f return M (value_of f) with
  | Schema => imageSchema
  | EncodingMap => ocvTypes
  | FieldNames => imageFields
  | UndefinedMarker => undefinedImageType
  end.

(** The gateway call a fetch of the field starts with. *)
Definition first_call (f : metadata) : jvm_call :=
  match f with
  | Schema => call_imageSchema
  | EncodingMap => call_ocvTypes
  | FieldNames => call_imageFields
  | UndefinedMarker => call_undefinedImageType
  end.

(** A statement is [stable] when it neither rebinds [__init__] nor
    empties a cached field. *)
Definition stable {A} (m : M A) : Prop :=
  forall w r w', m w = (r, w') ->
    _ImageSchema__init__ w' = _ImageSchema__init__ w /\
    forall f v, slot f (ImageSchema w) = Some v ->
                slot f (ImageSchema w') = Some v.

End Accessor.

(** ** An engine to run the model on *)

(** The canonical field names and encoding table of the engine. *)
Definition image_fields : list string :=
  ["origin"; "height"; "width"; "nChannels"; "mode"; "data"].

Definition engine_ocvTypes : gmap string Z :=
  {[ "Undefined" := -1; "CV_8U" := 0; "CV_8UC1" := 0;
     "CV_8UC3" := 16; "CV_8UC4" := 24 ]}.

(** An engine whose state counts the calls it has served. When [alive] is
    false every call fails. *)
Definition counting_engine (alive : bool) : Engine := {|
  jvm := nat;
  JavaObject := string;
  DataType := string;
  Float := Z;
  jvm_imageSchema n :=
    (if alive then Ok "jschema" else Failed "Py4JNetworkError", S n);
  jvm_json o n := (if alive then Ok "struct" else Failed "Py4JNetworkError", S n);
  jvm_ocvTypes n :=
    (if alive then Ok engine_ocvTypes else Failed "Py4JNetworkError", S n);
  jvm_imageFields n :=
    (if alive then Ok image_fields else Failed "Py4JNetworkError", S n);
  jvm_undefinedImageType n :=
    (if alive then Ok "Undefined" else Failed "Py4JNetworkError", S n);
  jvm_readImages _ _ _ _ _ n :=
    (if alive then Ok "jdf" else Failed "Py4JNetworkError", S n);
  _parse_datatype_json_string s := Return s
|}.

Definition image_row (h w c : Z) (data : list Z) : Row :=
  _create_row image_fields
              [VStr ""; VInt h; VInt w; VInt c; VInt 0; VBytes data].

(** Two rows that differ in [origin] and [mode] only, and a row whose
    data is too short for its dimensions. *)
Definition kitten_row : Row :=
  _create_row image_fields
    [VStr "file:/kittens/54893.jpg"; VInt 2; VInt 2; VInt 1; VInt 0;
     VBytes [10; 20; 30; 40]].

Definition kitten_row' : Row :=
  _create_row image_fields
    [VStr ""; VInt 2; VInt 2; VInt 1; VInt 16; VBytes [10; 20; 30; 40]].

Definition short_row : Row := image_row 2 2 1 [7].

Definition long_row : Row := image_row 1 2 1 [1; 2; 3; 4].

(** A process that has imported the module and holds an active context
    on the counting engine, and a 2 x 2 array of one channel whose items
    do not all fit a byte. *)
Definition started (alive : bool) : @world (counting_engine alive) :=
  @mk_world (counting_engine alive) (Some 0%nat)
            (@mk_ImageSchema (counting_engine alive) None None None None)
            _disallow_instance [].

(** The same process with no active Spark context. *)
Definition idle : @world (counting_engine true) :=
  @mk_world (counting_engine true) None
            (@mk_ImageSchema (counting_engine true) None None None None)
            _disallow_instance [].

Definition pixels : np.ndarray Z := np.mk_ndarray [2; 2; 1] [1; 2; 300; -1].

Definition two_channels : np.ndarray Z :=
  np.mk_ndarray [1; 2; 2] [1; 2; 3; 4].

(** The row of [pixels], and the process once it has made it. *)
Definition pixels_row : Row :=
  _create_row image_fields
    [VStr ""; VInt 2; VInt 2; VInt 1; VInt 0; VBytes [1; 2; 44; 255]].

Definition fetched : @world (counting_engine true) :=
  (@ocvTypes (counting_engine true) (started true)).2.

Definition converted : @world (counting_engine true) :=
  (@imageFields (counting_engine true) fetched).2.

(** ** What the statements below speak of *)

(** The strides of a C-contiguous array of the given shape. *)
Fixpoint c_strides (dims : list Z) : list Z :=
  match dims with
  | [] => []
  | _ :: dims' => np.size_of dims' :: c_strides dims'
  end.

(** The name of the Encoding Map entry that stands for a channel count. *)
Definition entry_for (nChannels : Z) (name : string) : Prop :=
  (nChannels = 1 /\ name = "CV_8UC1") \/
  (nChannels = 3 /\ name = "CV_8UC3") \/
  (nChannels = 4 /\ name = "CV_8UC4").

(** Runs the statement of hypothesis [H] to its end, one case for each
    way it can go. *)
Ltac run_in H :=
  unfold mbind, mret, M_bind, M_ret, self, setattr, lift, raise, py4j in H;
  simpl in H;
  repeat (case_match; simpl in *; simplify_eq; simpl in * ).

(** ** What the engine is asked for a field *)

Section Fetch.
Context {engine : Engine}.

(** An instance with one more field cached. *)
Definition cached_with (f : metadata) (v : value_of f) (s : _ImageSchema)
    : _ImageSchema :=
  match f return value_of f -> _ImageSchema with
  | Schema => fun v =>
      mk_ImageSchema (Some v) (_ocvTypes s) (_imageFields s)
                     (_undefinedImageType s)
  | EncodingMap => fun v =>
      mk_ImageSchema (_imageSchema s) (Some v) (_imageFields s)
                     (_undefinedImageType s)
  | FieldNames => fun v =>
      mk_ImageSchema (_imageSchema s) (_ocvTypes s) (Some v)
                     (_undefinedImageType s)
  | UndefinedMarker => fun v =>
      mk_ImageSchema (_imageSchema s) (_ocvTypes s) (_imageFields s) (Some v)
  end v.

(** The fetch of a field as the spec words it: the engine is asked for the
    field (for the schema, for its description, which is then asked for
    its JSON text, which is parsed), and answers or fails. The result
    comes with the JVM as the calls leave it and with the calls made. *)
Definition engine_reply (f : metadata) (j : jvm)
    : outcome (value_of f) * jvm * list jvm_call :=
  match f return outcome (value_of f) * jvm * list jvm_call with
  | Schema =>
      match jvm_imageSchema j with
      | (Ok jschema, j1) =>
          match jvm_json jschema j1 with
          | (Ok json, j2) =>
              (_parse_datatype_json_string json, j2,
               [call_imageSchema; call_json])
          | (Failed what, j2) =>
              (Raise (EngineError what), j2, [call_imageSchema; call_json])
          end
      | (Failed what, j1) => (Raise (EngineError what), j1, [call_imageSchema])
      end
  | EncodingMap =>
      match jvm_ocvTypes j with
      | (Ok types, j1) => (Return types, j1, [call_ocvTypes])
      | (Failed what, j1) => (Raise (EngineError what), j1, [call_ocvTypes])
      end
  | FieldNames =>
      match jvm_imageFields j with
      | (Ok fields, j1) => (Return fields, j1, [call_imageFields])
      | (Failed what, j1) => (Raise (EngineError what), j1, [call_imageFields])
      end
  | UndefinedMarker =>
      match jvm_undefinedImageType j with
      | (Ok name, j1) => (Return name, j1, [call_undefinedImageType])
      | (Failed what, j1) =>
          (Raise (EngineError what), j1, [call_undefinedImageType])
      end
  end.

End Fetch.

(** ** More rows, arrays and processes *)

(** Items that are bytes already. *)
Definition byte_valued (items : list Z) : Prop :=
  Forall (fun x => 0 <= x < 256) items.

(** The array that [kitten_row] shows. *)
Definition kitten : np.ndarray Z := np.mk_ndarray [2; 2; 1] [10; 20; 30; 40].

(** A row with the dimensions -1 and no data. *)
Definition undefined_row : Row := image_row (-1) (-1) (-1) [].

(** A process whose cached Encoding Map is empty. *)
Definition unmapped : @world (counting_engine true) :=
  @mk_world (counting_engine true) (Some 0%nat)
            (@mk_ImageSchema (counting_engine true) None (Some ∅) None None)
            _disallow_instance [].

(** * Properties *)

(** ** numpy: windows on a buffer *)

Lemma peek_seqZ (buffer : list Z) :
  np.peek buffer <$> seqZ 0 (Z.of_nat (length buffer)) = Some <$> buffer.
Proof.
  apply list_eq. intros i. rewrite !list_lookup_fmap.
  destruct (decide (i < length buffer)%nat) as [Hlt|Hge].
  - rewrite lookup_seqZ_lt by lia. simpl. unfold np.peek.
    destruct (Z.ltb_spec (0 + Z.of_nat i) 0) as [?|_]; [lia|].
    replace (Z.to_nat (0 + Z.of_nat i)) with i by lia.
    destruct (lookup_lt_is_Some_2 buffer i Hlt) as [x Hx]. by rewrite Hx.
  - rewrite lookup_seqZ_ge by lia.
    rewrite (lookup_ge_None_2 buffer i) by lia. reflexivity.
Qed.

Lemma fmap_concat {A B} (f : A -> B) (ls : list (list A)) :
  f <$> concat ls = concat ((fun l : list A => f <$> l) <$> ls).
Proof.
  induction ls as [|l ls IH]; simpl; [done|].
  by rewrite fmap_app, IH.
Qed.

Lemma concat_seqZ_blocks (n : nat) (off len : Z) :
  0 <= len ->
  concat ((fun i => seqZ (off + i * len) len) <$> seqZ 0 (Z.of_nat n))
  = seqZ off (Z.of_nat n * len).
Proof.
  intros Hlen. induction n as [|n IH].
  - simpl. rewrite seqZ_nil by lia. done.
  - rewrite seqZ_S, fmap_app, concat_app, IH. simpl. rewrite app_nil_r.
    replace (Z.of_nat (S n) * len) with (Z.of_nat n * len + len) by lia.
    rewrite seqZ_app by nia. reflexivity.
Qed.

Lemma size_of_nonneg (dims : list Z) :
  Forall (fun d => 0 <= d) dims -> 0 <= np.size_of dims.
Proof.
  induction 1 as [|d dims Hd _ IH]; simpl; [lia|].
  apply Z.mul_nonneg_nonneg; assumption.
Qed.

Lemma gather_c_contiguous (dims : list Z) (off : Z) (buffer : list Z) :
  Forall (fun d => 0 <= d) dims ->
  np.gather dims (c_strides dims) off buffer
  = np.peek buffer <$> seqZ off (np.size_of dims).
Proof.
  intros Hdims. revert off. induction Hdims as [|d dims Hd Hdims IH]; intros off.
  - reflexivity.
  - simpl in *.
    pose proof (size_of_nonneg dims Hdims) as Hsize.
    erewrite list_fmap_ext; [|intros ? i ?; apply IH].
    rewrite <- (Z2Nat.id d) by lia.
    rewrite <- concat_seqZ_blocks by done.
    rewrite fmap_concat, <- list_fmap_compose. done.
Qed.

Lemma ndarray_uint8_accepts (h w c : Z) (data : list Z) :
  0 <= h -> 0 <= w -> 0 <= c ->
  h * w * c <= Z.of_nat (length data) ->
  np.ndarray_uint8 [h; w; c] data [w * c; c; 1]
  = Return (np.mk_view [h; w; c] [w * c; c; 1] data).
Proof.
  intros Hh Hw Hc Hlen.
  unfold np.ndarray_uint8, np.CheckStrides. simpl.
  repeat match goal with
         | |- context [Z.eqb ?a ?b] => destruct (Z.eqb_spec a b); simpl
         | |- context [Z.ltb ?a ?b] => destruct (Z.ltb_spec a b); simpl
         end; try reflexivity; exfalso; nia.
Qed.

Lemma ndarray_uint8_rejects (h w c : Z) (data : list Z) :
  0 <= h -> 0 <= w -> 0 <= c ->
  0 < Z.of_nat (length data) < h * w * c ->
  np.ndarray_uint8 [h; w; c] data [w * c; c; 1]
  = Raise (ValueError
      "strides is incompatible with shape of requested array and size of buffer").
Proof.
  intros Hh Hw Hc Hlen.
  unfold np.ndarray_uint8, np.CheckStrides. simpl.
  repeat match goal with
         | |- context [Z.eqb ?a ?b] => destruct (Z.eqb_spec a b); simpl
         | |- context [Z.ltb ?a ?b] => destruct (Z.ltb_spec a b); simpl
         end; try reflexivity; exfalso; nia.
Qed.

Lemma ndarray_uint8_empty_buffer (h w c : Z) :
  0 <= h -> 0 <= w -> 0 <= c ->
  np.ndarray_uint8 [h; w; c] [] [w * c; c; 1]
  = Return (np.mk_view [h; w; c] [w * c; c; 1] []).
Proof.
  intros Hh Hw Hc.
  unfold np.ndarray_uint8, np.CheckStrides. simpl.
  repeat match goal with
         | |- context [Z.eqb ?a ?b] => destruct (Z.eqb_spec a b); simpl
         | |- context [Z.ltb ?a ?b] => destruct (Z.ltb_spec a b); simpl
         end; try reflexivity; exfalso; nia.
Qed.

Lemma contents_c_contiguous (h w c : Z) (data : list Z) :
  0 <= h -> 0 <= w -> 0 <= c ->
  Z.of_nat (length data) = h * w * c ->
  np.contents (np.mk_view [h; w; c] [w * c; c; 1] data)
  = Some (np.mk_ndarray [h; w; c] data).
Proof.
  intros Hh Hw Hc Hlen. unfold np.contents, np.tolist. simpl np.v_shape.
  simpl np.v_strides. simpl np.v_buffer.
  replace [w * c; c; 1] with (c_strides [h; w; c])
    by (simpl; repeat f_equal; lia).
  rewrite gather_c_contiguous by (repeat constructor; assumption).
  replace (np.size_of [h; w; c]) with (Z.of_nat (length data))
    by (simpl; lia).
  rewrite peek_seqZ, mapM_fmap_Some by done. reflexivity.
Qed.

(** ** Row to array *)

Lemma toNDArray_fields (image : Row) (h w c : Z) (data : list Z) :
  getattr image "height" = Return (VInt h) ->
  getattr image "width" = Return (VInt w) ->
  getattr image "nChannels" = Return (VInt c) ->
  getattr image "data" = Return (VBytes data) ->
  toNDArray image = np.ndarray_uint8 [h; w; c] data [w * c; c; 1].
Proof.
  intros Hh Hw Hc Hd. unfold toNDArray. rewrite Hh, Hw, Hc, Hd. reflexivity.
Qed.

(** C9, as the claim has it, fails: a row of height 2, width 2 and one
    channel that carries a single byte of data is rejected with an error,
    raised by the array constructor the method calls. *)
Lemma toNDArray_short_data_raises :
  toNDArray short_row
  = Raise (ValueError
      "strides is incompatible with shape of requested array and size of buffer").
Proof. reflexivity. Qed.

(** C9, amended: [toNDArray] checks nothing itself, and of a row whose
    height, width and nChannels are non-negative 32-bit integers it makes
    an array, without an error, in the two cases the constructor lets
    through: when the data holds at least height * width * nChannels
    bytes, more than that included, and when the data is empty, whatever
    the dimensions ask for. The array has the shape (height, width,
    nChannels) and lies over the row's data. Only a row whose data is
    not empty and shorter than height * width * nChannels is refused, by
    the array constructor, with a ValueError. *)
Theorem toNDArray_raises_only_on_short_data
    (image : Row) (h w c : Z) (data : list Z) :
  getattr image "height" = Return (VInt h) ->
  getattr image "width" = Return (VInt w) ->
  getattr image "nChannels" = Return (VInt c) ->
  getattr image "data" = Return (VBytes data) ->
  0 <= h < 2 ^ 31 -> 0 <= w < 2 ^ 31 -> 0 <= c < 2 ^ 31 ->
  Z.of_nat (length data) < 2 ^ 63 ->
  (h * w * c <= Z.of_nat (length data) ->
   toNDArray image = Return (np.mk_view [h; w; c] [w * c; c; 1] data)) /\
  (data = [] -> h * w * c < 2 ^ 63 ->
   toNDArray image = Return (np.mk_view [h; w; c] [w * c; c; 1] [])) /\
  (0 < Z.of_nat (length data) < h * w * c ->
   exists msg, toNDArray image = Raise (ValueError msg)).
Proof.
  intros Hh Hw Hc Hd Hh0 Hw0 Hc0 Hsize.
  rewrite (toNDArray_fields image h w c data) by assumption.
  split; [|split].
  - intros Hlen. apply ndarray_uint8_accepts; lia.
  - intros -> _. apply ndarray_uint8_empty_buffer; lia.
  - intros Hlen. eexists. apply ndarray_uint8_rejects; lia.
Qed.

Lemma toNDArray_raises_only_on_short_data_witness :
  toNDArray long_row = Return (np.mk_view [1; 2; 1] [2 * 1; 1; 1] [1; 2; 3; 4]).
Proof.
  apply (proj1 (toNDArray_raises_only_on_short_data long_row 1 2 1 [1; 2; 3; 4]
                  eq_refl eq_refl eq_refl eq_refl
                  ltac:(lia) ltac:(lia) ltac:(lia) ltac:(simpl; lia))).
  simpl. lia.
Defined.

(** C10: two rows with the same height, width, nChannels and data give the
    same result of [toNDArray], an array or an error, whatever else they
    hold: origin and mode are never read. *)
Theorem toNDArray_ignores_origin_and_mode (image1 image2 : Row) :
  getattr image1 "height" = getattr image2 "height" ->
  getattr image1 "width" = getattr image2 "width" ->
  getattr image1 "nChannels" = getattr image2 "nChannels" ->
  getattr image1 "data" = getattr image2 "data" ->
  toNDArray image1 = toNDArray image2.
Proof.
  intros Hh Hw Hc Hd. unfold toNDArray.
  rewrite Hh, Hw, Hc, Hd. reflexivity.
Qed.

Lemma toNDArray_ignores_origin_and_mode_witness :
  getattr kitten_row "origin" <> getattr kitten_row' "origin" /\
  getattr kitten_row "mode" <> getattr kitten_row' "mode" /\
  toNDArray kitten_row = toNDArray kitten_row'.
Proof.
  split; [discriminate|]. split; [discriminate|].
  apply (toNDArray_ignores_origin_and_mode kitten_row kitten_row');
    reflexivity.
Defined.

(** ** Running statements *)

Section AccessorProperties.
Context {engine : Engine}.

Lemma bind_Return {A B} (m : M A) (k : A -> M B) (w w' : world) (a : A) :
  m w = (Return a, w') -> (m ≫= k) w = k a w'.
Proof. intros Hm. unfold mbind, M_bind. rewrite Hm. reflexivity. Qed.

Lemma bind_Raise {A B} (m : M A) (k : A -> M B) (w w' : world) (e : exn) :
  m w = (Raise e, w') -> (m ≫= k) w = (Raise e, w').
Proof. intros Hm. unfold mbind, M_bind. rewrite Hm. reflexivity. Qed.

Lemma bind_inv {A B} (m : M A) (k : A -> M B) (w w2 : world) (r : outcome B) :
  (m ≫= k) w = (r, w2) ->
  (exists a w1, m w = (Return a, w1) /\ k a w1 = (r, w2)) \/
  (exists e, m w = (Raise e, w2) /\ r = Raise e).
Proof.
  unfold mbind, M_bind. destruct (m w) as [[a|e] w1]; intros Hk.
  - left. exists a, w1. split; [reflexivity|assumption].
  - right. exists e. inversion Hk. split; reflexivity.
Qed.

Lemma getitem_inv (d : gmap string Z) (key : string) (w w' : world) (r : outcome Z) :
  getitem d key w = (r, w') ->
  w' = w /\
  match d !! key with Some v => r = Return v | None => r = Raise (KeyError key) end.
Proof.
  unfold getitem. destruct (d !! key); intros Hr; inversion Hr; split; reflexivity.
Qed.

(** A gateway call changes the JVM behind the context and the log, and
    nothing else. *)
Lemma py4j_inv {A} (c : jvm_call) (f : jvm -> reply A * jvm) (w w' : world) (r : outcome A) :
  py4j c f w = (r, w') ->
  ImageSchema w' = ImageSchema w /\
  _ImageSchema__init__ w' = _ImageSchema__init__ w /\
  match _active_spark_context w with
  | None => w' = w /\ r = Raise (AttributeError "_jvm")
  | Some j =>
      gateway_log w' = (gateway_log w ++ [c])%list /\
      _active_spark_context w' = Some (f j).2 /\
      match (f j).1 with
      | Ok a => r = Return a
      | Failed what => r = Raise (EngineError what)
      end
  end.
Proof.
  unfold py4j. destruct (_active_spark_context w) as [j|].
  - destruct (f j) as [[a|what] j']; intros Hr; inversion Hr; simpl; auto.
  - intros Hr; inversion Hr; auto.
Qed.

(** *** Stable statements *)

Lemma stable_ret {A} (a : A) : stable (mret a).
Proof. intros w r w' Hr. inversion Hr. auto. Qed.

Lemma stable_raise {A} (e : exn) : stable (@raise _ A e).
Proof. intros w r w' Hr. inversion Hr. auto. Qed.

Lemma stable_bind {A B} (m : M A) (k : A -> M B) :
  stable m -> (forall a, stable (k a)) -> stable (m ≫= k).
Proof.
  intros Hm Hk w r w' Hr.
  apply bind_inv in Hr as [(a & w1 & Hm1 & Hk1)|(e & Hm1 & _)].
  - destruct (Hm _ _ _ Hm1) as [Hi1 Hs1]. destruct (Hk a _ _ _ Hk1) as [Hi2 Hs2].
    split; [congruence|]. intros f v Hf. apply Hs2, Hs1, Hf.
  - apply (Hm _ _ _ Hm1).
Qed.

Lemma stable_py4j {A} (c : jvm_call) (f : jvm -> reply A * jvm) :
  stable (py4j c f).
Proof.
  intros w r w' Hr. apply py4j_inv in Hr as (Hs & Hi & _).
  split; [assumption|]. intros fld v Hfld. rewrite Hs. assumption.
Qed.

Lemma stable_getitem (d : gmap string Z) (key : string) : stable (getitem d key).
Proof. intros w r w' Hr. apply getitem_inv in Hr as [-> _]. auto. Qed.

Lemma stable_read (f : metadata) : stable (read f).
Proof.
  intros w r w' Hr. destruct f; simpl in Hr.
  - unfold imageSchema in Hr. run_in Hr;
      (split; [reflexivity|]); intros fld v' Hfld; destruct fld; simpl in *; congruence.
  - unfold ocvTypes in Hr. run_in Hr;
      (split; [reflexivity|]); intros fld v' Hfld; destruct fld; simpl in *; congruence.
  - unfold imageFields in Hr. run_in Hr;
      (split; [reflexivity|]); intros fld v' Hfld; destruct fld; simpl in *; congruence.
  - unfold undefinedImageType in Hr. run_in Hr;
      (split; [reflexivity|]); intros fld v' Hfld; destruct fld; simpl in *; congruence.
Qed.

(** *** Reading a metadata field *)

Lemma read_cached (f : metadata) (w : world) (v : value_of f) :
  slot f (ImageSchema w) = Some v -> read f w = (Return v, w).
Proof.
  destruct f; simpl; intros Hslot;
    [unfold imageSchema|unfold ocvTypes|unfold imageFields|unfold undefinedImageType];
    unfold mbind, M_bind, self; simpl; rewrite Hslot; reflexivity.
Qed.

Lemma read_unset (f : metadata) (w w' : world) (r : outcome (value_of f)) :
  slot f (ImageSchema w) = None ->
  read f w = (r, w') ->
  match r with
  | Return v =>
      slot f (ImageSchema w') = Some v /\
      (forall g, g <> f -> slot g (ImageSchema w') = slot g (ImageSchema w)) /\
      (exists calls, gateway_log w' = (gateway_log w ++ first_call f :: calls)%list)
  | Raise e =>
      ImageSchema w' = ImageSchema w /\
      (e = AttributeError "_jvm" \/
       (exists what, e = EngineError what) \/
       (f = Schema /\ exists json, _parse_datatype_json_string json = Raise e))
  end.
Proof.
  destruct f; simpl; intros Hslot Hr.
  - unfold imageSchema in Hr. run_in Hr; eauto 10.
    split; [reflexivity|]. split; [|eexists; rewrite <- app_assoc; reflexivity].
    intros fld Hne; destruct fld; simpl; congruence.
  - unfold ocvTypes in Hr. run_in Hr; eauto 10.
    split; [reflexivity|]. split; [|exists []; reflexivity].
    intros fld Hne; destruct fld; simpl; congruence.
  - unfold imageFields in Hr. run_in Hr; eauto 10.
    split; [reflexivity|]. split; [|exists []; reflexivity].
    intros fld Hne; destruct fld; simpl; congruence.
  - unfold undefinedImageType in Hr. run_in Hr; eauto 10.
    split; [reflexivity|]. split; [|exists []; reflexivity].
    intros fld Hne; destruct fld; simpl; congruence.
Qed.

Lemma read_Return (f : metadata) (w w' : world) (v : value_of f) :
  read f w = (Return v, w') -> slot f (ImageSchema w') = Some v.
Proof.
  intros Hr. destruct (slot f (ImageSchema w)) as [v0|] eqn:Hslot.
  - rewrite (read_cached f w v0 Hslot) in Hr. inversion Hr; subst. assumption.
  - apply (read_unset f w w' (Return v) Hslot Hr).
Qed.

Lemma read_Raise (f : metadata) (w w' : world) (e : exn) :
  f <> Schema ->
  read f w = (Raise e, w') ->
  e = AttributeError "_jvm" \/ exists what, e = EngineError what.
Proof.
  intros Hf Hr. destruct (slot f (ImageSchema w)) as [v0|] eqn:Hslot.
  - rewrite (read_cached f w v0 Hslot) in Hr. discriminate.
  - destruct (read_unset f w w' (Raise e) Hslot Hr) as [_ [?|[?|[? _]]]];
      [auto|auto|contradiction].
Qed.

(** With an active context, reading an unset field goes to the engine. *)
Lemma read_unset_fetches (f : metadata) (w : world) (j : jvm) :
  slot f (ImageSchema w) = None ->
  _active_spark_context w = Some j ->
  exists calls,
    gateway_log (read f w).2 = (gateway_log w ++ first_call f :: calls)%list.
Proof.
  intros Hslot Hctx.
  destruct f; simpl in *;
    [unfold imageSchema|unfold ocvTypes|unfold imageFields|unfold undefinedImageType];
    unfold mbind, mret, M_bind, M_ret, self, setattr, lift, raise, py4j; simpl;
    rewrite Hslot, Hctx; simpl;
    repeat (case_match; simpl in *; simplify_eq; simpl in * );
    try (exists []; reflexivity);
    eexists; rewrite <- app_assoc; reflexivity.
Qed.

Lemma stable_toImage {T} `{np.Dtype T} (array : np.ndarray T) (origin : option string) :
  stable (toImage array origin).
Proof.
  unfold toImage. cbv zeta.
  destruct (negb (np.ndim array =? 3)%nat); [apply stable_raise|].
  destruct (np.shape array) as [|h [|w [|c [|]]]]; try apply stable_raise.
  apply stable_bind; [apply (stable_read EncodingMap)|intros types].
  apply stable_bind.
  { destruct (c =? 1); [apply stable_getitem|].
    destruct (c =? 3); [apply stable_getitem|].
    destruct (c =? 4); [apply stable_getitem|apply stable_raise]. }
  intros mode.
  apply stable_bind; [apply (stable_read FieldNames)|intros fields].
  apply stable_ret.
Qed.

Lemma readImages_inv (path : string) (recursive : bool) (numPartitions : Z)
    (dropImageFailures : bool) (sampleRatio : Float)
    (w w' : world) (r : outcome JavaObject) :
  readImages path recursive numPartitions dropImageFailures sampleRatio w
  = (r, w') ->
  ImageSchema w' = ImageSchema w /\
  _ImageSchema__init__ w' = _ImageSchema__init__ w /\
  match _active_spark_context w with
  | None => w' = w /\ r = Raise (AttributeError "_jsc")
  | Some j => gateway_log w' = (gateway_log w ++ [call_readImages])%list
  end.
Proof.
  unfold readImages. destruct (_active_spark_context w) as [j|] eqn:Hctx.
  - intros Hr. apply py4j_inv in Hr as (Hsame & Hinit & Hlog).
    rewrite Hctx in Hlog. destruct Hlog as [Hlog _]. auto.
  - intros Hr. inversion Hr. auto.
Qed.

Lemma step_stable (w w' : world) :
  step w w' ->
  _ImageSchema__init__ w' = _ImageSchema__init__ w /\
  forall f v, slot f (ImageSchema w) = Some v -> slot f (ImageSchema w') = Some v.
Proof.
  intros Hstep. destruct Hstep; simpl; auto.
  - apply (stable_read Schema w (imageSchema w).1). apply surjective_pairing.
  - apply (stable_read EncodingMap w (ocvTypes w).1). apply surjective_pairing.
  - apply (stable_read FieldNames w (imageFields w).1). apply surjective_pairing.
  - apply (stable_read UndefinedMarker w (undefinedImageType w).1).
    apply surjective_pairing.
  - eapply stable_toImage. apply surjective_pairing.
  - match goal with
    | |- context [readImages ?p ?r ?n ?d ?s ?w] =>
        destruct (readImages p r n d s w) as [r0 w0] eqn:Hrun
    end.
    apply readImages_inv in Hrun as (Hsame & Hinit & _). simpl.
    split; [assumption|]. intros f v Hf. rewrite Hsame. assumption.
Qed.

Lemma steps_stable (w w' : world) :
  rtc step w w' ->
  _ImageSchema__init__ w' = _ImageSchema__init__ w /\
  forall f v, slot f (ImageSchema w) = Some v -> slot f (ImageSchema w') = Some v.
Proof.
  induction 1 as [w|w w1 w2 Hstep _ [IHi IHs]]; [auto|].
  destruct (step_stable _ _ Hstep) as [Hi Hs].
  split; [congruence|]. intros f v Hf. apply IHs, Hs, Hf.
Qed.

End AccessorProperties.

(** ** Array to row *)

Section ToImage.
Context {engine : Engine} {T : Type} `{np.Dtype T}.

(** A successful conversion, read backwards. *)
Lemma toImage_Return (array : np.ndarray T) (origin : option string)
    (w0 w2 : world) (row : Row) :
  toImage array origin w0 = (Return row, w2) ->
  exists h w c types w1 name mode fields,
    np.shape array = [h; w; c] /\
    ocvTypes w0 = (Return types, w1) /\
    entry_for c name /\ types !! name = Some mode /\
    imageFields w1 = (Return fields, w2) /\
    row = _create_row fields
            [VStr (default "" origin); VInt h; VInt w; VInt c; VInt mode;
             VBytes (np.to_uint8 <$> np.items array)].
Proof.
  unfold toImage. cbv zeta.
  destruct (negb (np.ndim array =? 3)%nat); [discriminate|].
  destruct (np.shape array) as [|h [|w [|c [|]]]]; try discriminate.
  intros Hrun.
  apply bind_inv in Hrun as [(types & w1 & Htypes & Hrun)|(e & _ & ?)];
    [|discriminate].
  apply bind_inv in Hrun as [(mode & w1' & Hmode & Hrun)|(e & _ & ?)];
    [|discriminate].
  apply bind_inv in Hrun as [(fields & w2' & Hfields & Hrun)|(e & _ & ?)];
    [|discriminate].
  inversion Hrun; subst row w2'; clear Hrun.
  assert (Hentry : exists name, entry_for c name /\ types !! name = Some mode /\ w1' = w1).
  { unfold entry_for.
    destruct (Z.eqb_spec c 1) as [->|_];
      [|destruct (Z.eqb_spec c 3) as [->|_];
        [|destruct (Z.eqb_spec c 4) as [->|_]; [|discriminate]]];
      apply getitem_inv in Hmode as [-> Hlookup];
      [exists "CV_8UC1"|exists "CV_8UC3"|exists "CV_8UC4"];
      (destruct (types !! _) as [v|]; [|discriminate]);
      inversion Hlookup; auto 10. }
  destruct Hentry as (name & Hname & Hlookup & ->).
  exists h, w, c, types, w1, name, mode, fields. auto 10.
Qed.

(** A successful conversion, read forwards. *)
Lemma toImage_run (array : np.ndarray T) (origin : option string)
    (w0 w1 w2 : world) (h w c mode : Z) (types : gmap string Z)
    (name : string) (fields : list string) :
  np.shape array = [h; w; c] ->
  ocvTypes w0 = (Return types, w1) ->
  entry_for c name -> types !! name = Some mode ->
  imageFields w1 = (Return fields, w2) ->
  toImage array origin w0
  = (Return (_create_row fields
               [VStr (default "" origin); VInt h; VInt w; VInt c; VInt mode;
                VBytes (np.to_uint8 <$> np.items array)]), w2).
Proof.
  intros Hshape Htypes Hname Hlookup Hfields.
  unfold toImage, np.ndim. cbv zeta. rewrite Hshape.
  change (negb (length [h; w; c] =? 3)%nat) with false. cbv iota.
  rewrite (bind_Return _ _ _ _ _ Htypes).
  assert (Hmode :
    (if c =? 1 then getitem types "CV_8UC1"
     else if c =? 3 then getitem types "CV_8UC3"
     else if c =? 4 then getitem types "CV_8UC4"
     else raise (ValueError "Invalid number of channels")) w1
    = (Return mode, w1)).
  { destruct Hname as [[-> ->]|[[-> ->]|[-> ->]]]; simpl;
      unfold getitem; rewrite Hlookup; reflexivity. }
  rewrite (bind_Return _ _ _ _ _ Hmode).
  rewrite (bind_Return _ _ _ _ _ Hfields). reflexivity.
Qed.

(** C1: an array of shape (h, w, c) with c among 1, 3 and 4, converted
    to a row by [toImage] and back by [toNDArray], gives an array of the
    same shape whose contents are the array cast to unsigned 8-bit. The
    engine is required to serve the Encoding Map with the entry for c and
    the six field names. *)
Theorem toImage_toNDArray_round_trip
    (A : np.ndarray T) (origin : option string) (h w c : Z)
    (w0 w1 w2 : world) (types : gmap string Z) (name : string) (mode : Z) :
  np.well_formed A ->
  np.shape A = [h; w; c] ->
  entry_for c name ->
  ocvTypes w0 = (Return types, w1) ->
  types !! name = Some mode ->
  imageFields w1 = (Return image_fields, w2) ->
  exists row view,
    toImage A origin w0 = (Return row, w2) /\
    toNDArray row = Return view /\
    np.v_shape view = [h; w; c] /\
    np.contents view = Some (np.astype_uint8 A).
Proof.
  intros [Hdims Hlen] Hshape Hname Htypes Hlookup Hfields.
  rewrite Hshape in Hdims, Hlen.
  apply Forall_cons in Hdims as [Hh Hdims].
  apply Forall_cons in Hdims as [Hw Hdims].
  apply Forall_cons in Hdims as [Hc _].
  simpl in Hlen.
  set (data := np.to_uint8 <$> np.items A).
  assert (Hdata : Z.of_nat (length data) = h * w * c).
  { unfold data. rewrite length_fmap. lia. }
  eexists. exists (np.mk_view [h; w; c] [w * c; c; 1] data).
  split; [exact (toImage_run A origin w0 w1 w2 h w c mode types name
                   image_fields Hshape Htypes Hname Hlookup Hfields)|].
  split.
  - rewrite (toNDArray_fields _ h w c data) by reflexivity.
    apply ndarray_uint8_accepts; lia.
  - split; [reflexivity|].
    rewrite contents_c_contiguous by assumption.
    unfold np.astype_uint8. rewrite Hshape. reflexivity.
Qed.

(** C2: on an array of three dimensions, every row that [toImage]
    returns carries in its mode the Encoding Map's entry CV_8UC1 when the
    array has one channel, CV_8UC3 when it has three and CV_8UC4 when it
    has four, and such a row is returned whenever the engine serves that
    entry and the field names. For any other channel count no row is
    returned, and once the Encoding Map is read the error is ValueError,
    Invalid number of channels. *)
Theorem toImage_channels_to_mode
    (array : np.ndarray T) (origin : option string) (h w c : Z) (w0 : world) :
  np.shape array = [h; w; c] ->
  (forall row w2,
     toImage array origin w0 = (Return row, w2) ->
     exists name mode types w1,
       ((c = 1 /\ name = "CV_8UC1") \/
        (c = 3 /\ name = "CV_8UC3") \/
        (c = 4 /\ name = "CV_8UC4")) /\
       ocvTypes w0 = (Return types, w1) /\
       types !! name = Some mode /\
       values row !! 4%nat = Some (VInt mode) /\
       (__fields__ row = image_fields ->
        getattr row "mode" = Return (VInt mode))) /\
  (forall name mode types w1 fields w2,
     (c = 1 /\ name = "CV_8UC1") \/
     (c = 3 /\ name = "CV_8UC3") \/
     (c = 4 /\ name = "CV_8UC4") ->
     ocvTypes w0 = (Return types, w1) ->
     types !! name = Some mode ->
     imageFields w1 = (Return fields, w2) ->
     exists row,
       toImage array origin w0 = (Return row, w2) /\
       values row !! 4%nat = Some (VInt mode)) /\
  (c <> 1 -> c <> 3 -> c <> 4 ->
     (forall row w2, toImage array origin w0 <> (Return row, w2)) /\
     (forall types w1,
        ocvTypes w0 = (Return types, w1) ->
        toImage array origin w0
        = (Raise (ValueError "Invalid number of channels"), w1))).
Proof.
  intros Hshape. split; [|split].
  - intros row w2 Hrun.
    apply toImage_Return in Hrun
      as (h' & w' & c' & types & w1 & name & mode & fields
          & Hshape' & Htypes & Hname & Hlookup & _ & ->).
    rewrite Hshape in Hshape'. inversion Hshape'; subst h' w' c'.
    exists name, mode, types, w1.
    repeat split; try assumption. simpl. intros ->. reflexivity.
  - intros name mode types w1 fields w2 Hname Htypes Hlookup Hfields.
    eexists. split; [exact (toImage_run array origin w0 w1 w2 h w c mode types
                              name fields Hshape Htypes Hname Hlookup Hfields)|].
    reflexivity.
  - intros H1 H3 H4. split.
    + intros row w2 Hrun.
      apply toImage_Return in Hrun
        as (h' & w' & c' & types & w1 & name & mode & fields
            & Hshape' & _ & Hname & _).
      rewrite Hshape in Hshape'. inversion Hshape'; subst h' w' c'.
      destruct Hname as [[? _]|[[? _]|[? _]]]; contradiction.
    + intros types w1 Htypes.
      unfold toImage, np.ndim. cbv zeta. rewrite Hshape.
      change (negb (length [h; w; c] =? 3)%nat) with false. cbv iota.
      rewrite (bind_Return _ _ _ _ _ Htypes).
      destruct (Z.eqb_spec c 1); [contradiction|].
      destruct (Z.eqb_spec c 3); [contradiction|].
      destruct (Z.eqb_spec c 4); [contradiction|].
      reflexivity.
Qed.

(** C3: [toImage] raises ValueError, Invalid array shape, on every array
    whose number of dimensions is not 3, before it touches anything else;
    on an array of three dimensions it never raises that error. *)
Theorem toImage_shape_validation
    (array : np.ndarray T) (origin : option string) (w0 : world) :
  (np.ndim array <> 3%nat ->
     toImage array origin w0 = (Raise (ValueError "Invalid array shape"), w0)) /\
  (np.ndim array = 3%nat ->
     (toImage array origin w0).1 <> Raise (ValueError "Invalid array shape")).
Proof.
  split.
  - intros Hndim. unfold toImage. cbv zeta.
    destruct (Nat.eqb_spec (np.ndim array) 3); [contradiction|]. reflexivity.
  - intros Hndim. destruct (toImage array origin w0) as [r w'] eqn:Hrun.
    simpl. intros ->. revert Hrun.
    unfold toImage, np.ndim in *. cbv zeta.
    destruct (np.shape array) as [|h [|w [|c [|]]]]; try discriminate.
    change (negb (length [h; w; c] =? 3)%nat) with false. cbv iota.
    intros Hrun.
    apply bind_inv in Hrun as [(types & w1 & _ & Hrun)|(e & Hraise & He)].
    2:{ inversion He; subst e.
        destruct (read_Raise EncodingMap _ _ _ ltac:(discriminate) Hraise)
          as [?|[? ?]]; discriminate. }
    apply bind_inv in Hrun as [(mode & w1' & _ & Hrun)|(e & Hraise & He)].
    2:{ inversion He; subst e.
        destruct (c =? 1); [|destruct (c =? 3); [|destruct (c =? 4)]];
          try (apply getitem_inv in Hraise as [_ Hraise];
               destruct (types !! _); discriminate).
        discriminate. }
    apply bind_inv in Hrun as [(fields & w2 & _ & Hrun)|(e & Hraise & He)].
    2:{ inversion He; subst e.
        destruct (read_Raise FieldNames _ _ _ ltac:(discriminate) Hraise)
          as [?|[? ?]]; discriminate. }
    discriminate.
Qed.

(** C4: in every row that [toImage] returns, the data holds exactly
    height * width * nChannels bytes, these three being the row's own
    fields, taken from the shape of the array. *)
Theorem toImage_data_length
    (array : np.ndarray T) (origin : option string) (w0 w2 : world) (row : Row) :
  np.well_formed array ->
  toImage array origin w0 = (Return row, w2) ->
  exists o height width nChannels mode data,
    values row = [VStr o; VInt height; VInt width; VInt nChannels;
                  VInt mode; VBytes data] /\
    np.shape array = [height; width; nChannels] /\
    Z.of_nat (length data) = height * width * nChannels /\
    (__fields__ row = image_fields ->
       getattr row "height" = Return (VInt height) /\
       getattr row "width" = Return (VInt width) /\
       getattr row "nChannels" = Return (VInt nChannels) /\
       getattr row "data" = Return (VBytes data)).
Proof.
  intros [_ Hlen] Hrun.
  apply toImage_Return in Hrun
    as (h & w & c & types & w1 & name & mode & fields
        & Hshape & _ & _ & _ & _ & ->).
  exists (default "" origin), h, w, c, mode, (np.to_uint8 <$> np.items array).
  split; [reflexivity|]. split; [assumption|]. split.
  - rewrite length_fmap, Hlen, Hshape. simpl. lia.
  - simpl. intros ->. repeat split; reflexivity.
Qed.

(** C7: the values of a row that [toImage] returns stand in the order
    origin, height, width, nChannels, mode, data, whatever list of field
    names the engine serves; the names are attached as the engine lists
    them, unsorted, and when that list is the schema's the six values are
    found under their names. *)
Theorem toImage_field_order
    (array : np.ndarray T) (origin : option string) (w0 w2 : world) (row : Row) :
  toImage array origin w0 = (Return row, w2) ->
  exists height width nChannels mode data,
    np.shape array = [height; width; nChannels] /\
    values row = [VStr (default "" origin); VInt height; VInt width;
                  VInt nChannels; VInt mode; VBytes data] /\
    imageFields w2 = (Return (__fields__ row), w2) /\
    (__fields__ row = image_fields ->
       getattr row "origin" = Return (VStr (default "" origin)) /\
       getattr row "height" = Return (VInt height) /\
       getattr row "width" = Return (VInt width) /\
       getattr row "nChannels" = Return (VInt nChannels) /\
       getattr row "mode" = Return (VInt mode) /\
       getattr row "data" = Return (VBytes data)).
Proof.
  intros Hrun.
  apply toImage_Return in Hrun
    as (h & w & c & types & w1 & name & mode & fields
        & Hshape & _ & _ & _ & Hfields & ->).
  exists h, w, c, mode, (np.to_uint8 <$> np.items array).
  split; [assumption|]. split; [reflexivity|]. split.
  - simpl. apply (read_cached FieldNames).
    apply (read_Return FieldNames w1). assumption.
  - simpl. intros ->. repeat split; reflexivity.
Qed.

(** C8: a row that [toImage] returns when it is called without an origin
    has the empty string as its origin. *)
Theorem toImage_default_origin
    (array : np.ndarray T) (w0 w2 : world) (row : Row) :
  toImage array None w0 = (Return row, w2) ->
  values row !! 0%nat = Some (VStr "") /\
  (__fields__ row = image_fields -> getattr row "origin" = Return (VStr "")).
Proof.
  intros Hrun.
  apply toImage_Return in Hrun
    as (h & w & c & types & w1 & name & mode & fields
        & _ & _ & _ & _ & _ & ->).
  split; [reflexivity|]. simpl. intros ->. reflexivity.
Qed.

End ToImage.

(** ** The singleton and its cache *)

Section Singleton.
Context {engine : Engine}.

(** C5: once the module is imported, every call of the class, after any
    use of the module whatever, raises RuntimeError and leaves the process
    as it was: no instance is made and nothing is initialised. *)
Theorem second_instance_disallowed
    (ctx : option jvm) (loaded w : world) :
  import_module ctx = Return loaded ->
  rtc step loaded w ->
  new_ImageSchema w
  = (Raise (RuntimeError "Creating instance of _ImageSchema class is disallowed."),
     w).
Proof.
  intros Himport Hsteps.
  assert (Hinit : _ImageSchema__init__ loaded = _disallow_instance).
  { unfold import_module in Himport. simpl in Himport.
    inversion Himport. reflexivity. }
  destruct (steps_stable _ _ Hsteps) as [Hkept _].
  unfold new_ImageSchema. rewrite Hkept, Hinit. reflexivity.
Qed.

(** What a read of an unset field does, by the answer of the engine. *)
Lemma read_unset_run (f : metadata) (w : world) :
  slot f (ImageSchema w) = None ->
  read f w
  = match _active_spark_context w with
    | None => (Raise (AttributeError "_jvm"), w)
    | Some j =>
        let '(r, j', calls) := engine_reply f j in
        (r,
         mk_world (Some j')
           match r with
           | Return v => cached_with f v (ImageSchema w)
           | Raise _ => ImageSchema w
           end
           (_ImageSchema__init__ w) (gateway_log w ++ calls))
    end.
Proof.
  intros Hslot.
  destruct f; simpl in *;
    [unfold imageSchema|unfold ocvTypes|unfold imageFields
    |unfold undefinedImageType];
    unfold mbind, mret, M_bind, M_ret, self, setattr, lift, raise, py4j; simpl;
    rewrite Hslot; destruct (_active_spark_context w) as [j|];
    try reflexivity; simpl.
  - destruct (jvm_imageSchema j) as [[jschema|what] j1]; simpl;
      [|reflexivity].
    destruct (jvm_json jschema j1) as [[json|what] j2]; simpl;
      [|rewrite <- app_assoc; reflexivity].
    destruct (_parse_datatype_json_string json) as [schema|e]; simpl;
      rewrite <- app_assoc; reflexivity.
  - destruct (jvm_ocvTypes j) as [[types|what] j1]; reflexivity.
  - destruct (jvm_imageFields j) as [[fields|what] j1]; reflexivity.
  - destruct (jvm_undefinedImageType j) as [[name|what] j1]; reflexivity.
Qed.

(** C6: each of the four metadata fields is unset or cached. Reading a
    cached field returns the cached value and changes nothing, the
    gateway log included. A read of an unset field that succeeds went to
    the engine, leaves the field cached with the value it returns and the
    three other fields as they were, and a second read returns the same
    value with no further call. A read that fails leaves every field as
    it was, so that the next read, given an active context, goes to the
    engine again. No step of the process empties a cached field. And a
    read of an unset field does succeed or fail as the engine answers:
    with an active context it returns what the engine serves and caches
    it, or raises what the fetch raises and caches nothing; with none it
    raises AttributeError and the process is as it was. *)
Theorem metadata_cache_state_machine (f : metadata) (w : world) :
  (forall v, slot f (ImageSchema w) = Some v -> read f w = (Return v, w)) /\
  (forall v w',
     slot f (ImageSchema w) = None ->
     read f w = (Return v, w') ->
     slot f (ImageSchema w') = Some v /\
     (forall g, g <> f -> slot g (ImageSchema w') = slot g (ImageSchema w)) /\
     (exists calls,
        gateway_log w' = (gateway_log w ++ first_call f :: calls)%list) /\
     read f w' = (Return v, w')) /\
  (forall e w',
     slot f (ImageSchema w) = None ->
     read f w = (Raise e, w') ->
     ImageSchema w' = ImageSchema w /\
     (forall j, _active_spark_context w' = Some j ->
        exists calls,
          gateway_log (read f w').2
          = (gateway_log w' ++ first_call f :: calls)%list)) /\
  (forall v w',
     slot f (ImageSchema w) = Some v ->
     rtc step w w' ->
     slot f (ImageSchema w') = Some v) /\
  (slot f (ImageSchema w) = None ->
   _active_spark_context w = None ->
   read f w = (Raise (AttributeError "_jvm"), w)) /\
  (forall j v j' calls,
     slot f (ImageSchema w) = None ->
     _active_spark_context w = Some j ->
     engine_reply f j = (Return v, j', calls) ->
     read f w
     = (Return v,
        mk_world (Some j') (cached_with f v (ImageSchema w))
                 (_ImageSchema__init__ w) (gateway_log w ++ calls)) /\
     slot f (cached_with f v (ImageSchema w)) = Some v) /\
  (forall j e j' calls,
     slot f (ImageSchema w) = None ->
     _active_spark_context w = Some j ->
     engine_reply f j = (Raise e, j', calls) ->
     read f w
     = (Raise e,
        mk_world (Some j') (ImageSchema w)
                 (_ImageSchema__init__ w) (gateway_log w ++ calls))).
Proof.
  split; [apply read_cached|]. split; [|split; [|split; [|split; [|split]]]].
  - intros v w' Hunset Hread.
    destruct (read_unset f w w' (Return v) Hunset Hread) as (Hset & Hothers & Hlog).
    repeat split; try assumption. apply read_cached, Hset.
  - intros e w' Hunset Hread.
    destruct (read_unset f w w' (Raise e) Hunset Hread) as [Hsame _].
    split; [assumption|]. intros j Hctx.
    apply (read_unset_fetches f w' j); [|assumption].
    rewrite Hsame. assumption.
  - intros v w' Hcached Hsteps.
    apply (steps_stable _ _ Hsteps). assumption.
  - intros Hunset Hctx. rewrite (read_unset_run f w Hunset), Hctx. reflexivity.
  - intros j v j' calls Hunset Hctx Hreply.
    rewrite (read_unset_run f w Hunset), Hctx, Hreply.
    split; [reflexivity|]. destruct f; reflexivity.
  - intros j e j' calls Hunset Hctx Hreply.
    rewrite (read_unset_run f w Hunset), Hctx, Hreply. reflexivity.
Qed.

End Singleton.

(** ** The theorems at work on the counting engine *)

Lemma toImage_toNDArray_round_trip_witness :
  exists row view,
    @toImage (counting_engine true) Z _ pixels None (started true)
    = (Return row, converted) /\
    toNDArray row = Return view /\
    np.v_shape view = [2; 2; 1] /\
    np.contents view = Some (np.astype_uint8 pixels).
Proof.
  apply (@toImage_toNDArray_round_trip (counting_engine true) Z _
           pixels None 2 2 1 (started true) fetched converted
           engine_ocvTypes "CV_8UC1" 0).
  - split; [repeat constructor; lia|reflexivity].
  - reflexivity.
  - left. split; reflexivity.
  - reflexivity.
  - vm_compute. reflexivity.
  - reflexivity.
Defined.

Lemma toImage_channels_to_mode_witness :
  (exists row,
     @toImage (counting_engine true) Z _ pixels None (started true)
     = (Return row, converted) /\
     values row !! 4%nat = Some (VInt 0)) /\
  @toImage (counting_engine true) Z _ two_channels None (started true)
  = (Raise (ValueError "Invalid number of channels"), fetched).
Proof.
  split.
  - apply (proj1 (proj2 (@toImage_channels_to_mode (counting_engine true) Z _
                           pixels None 2 2 1 (started true) eq_refl))
             "CV_8UC1" 0 engine_ocvTypes fetched image_fields converted).
    + left. split; reflexivity.
    + reflexivity.
    + vm_compute. reflexivity.
    + reflexivity.
  - assert (Hother : 2 <> 1 /\ 2 <> 3 /\ 2 <> 4) by lia.
    destruct Hother as (H1 & H3 & H4).
    apply (proj2 (proj2 (proj2 (@toImage_channels_to_mode
                                  (counting_engine true) Z _
                                  two_channels None 1 2 2 (started true) eq_refl))
                        H1 H3 H4) engine_ocvTypes fetched).
    reflexivity.
Defined.

Lemma toImage_data_length_witness :
  exists o height width nChannels mode data,
    values pixels_row = [VStr o; VInt height; VInt width; VInt nChannels;
                         VInt mode; VBytes data] /\
    np.shape pixels = [height; width; nChannels] /\
    Z.of_nat (length data) = height * width * nChannels /\
    (__fields__ pixels_row = image_fields ->
       getattr pixels_row "height" = Return (VInt height) /\
       getattr pixels_row "width" = Return (VInt width) /\
       getattr pixels_row "nChannels" = Return (VInt nChannels) /\
       getattr pixels_row "data" = Return (VBytes data)).
Proof.
  apply (@toImage_data_length (counting_engine true) Z _
           pixels None (started true) converted pixels_row).
  - split; [repeat constructor; lia|reflexivity].
  - vm_compute. reflexivity.
Defined.

Lemma second_instance_disallowed_witness :
  @new_ImageSchema (counting_engine true) converted
  = (Raise (RuntimeError "Creating instance of _ImageSchema class is disallowed."),
     converted).
Proof.
  apply (@second_instance_disallowed (counting_engine true)
           (Some 0%nat) (started true) converted).
  - reflexivity.
  - eapply rtc_l; [apply step_ocvTypes|].
    eapply rtc_l; [apply step_imageFields|]. apply rtc_refl.
Defined.

Lemma metadata_cache_state_machine_witness :
  @read (counting_engine true) EncodingMap (started true)
  = (Return engine_ocvTypes, fetched) /\
  @read (counting_engine true) EncodingMap fetched
  = (Return engine_ocvTypes, fetched) /\
  @read (counting_engine false) EncodingMap (started false)
  = (Raise (EngineError "Py4JNetworkError"),
     @mk_world (counting_engine false) (Some 1%nat)
               (@mk_ImageSchema (counting_engine false) None None None None)
               _disallow_instance [call_ocvTypes]).
Proof.
  split; [|split].
  - destruct (@metadata_cache_state_machine (counting_engine true)
                EncodingMap (started true)) as (_ & _ & _ & _ & _ & Hserved & _).
    exact (proj1 (Hserved 0%nat engine_ocvTypes 1%nat [call_ocvTypes]
                    eq_refl eq_refl eq_refl)).
  - destruct (@metadata_cache_state_machine (counting_engine true)
                EncodingMap fetched) as (Hcached & _).
    exact (Hcached engine_ocvTypes eq_refl).
  - destruct (@metadata_cache_state_machine (counting_engine false)
                EncodingMap (started false)) as (_ & _ & _ & _ & _ & _ & Hfailed).
    exact (Hfailed 0%nat (EngineError "Py4JNetworkError") 1%nat [call_ocvTypes]
             eq_refl eq_refl eq_refl).
Defined.

Lemma toImage_field_order_witness :
  exists height width nChannels mode data,
    np.shape pixels = [height; width; nChannels] /\
    values pixels_row = [VStr (default "" None); VInt height; VInt width;
                         VInt nChannels; VInt mode; VBytes data] /\
    @imageFields (counting_engine true) converted
    = (Return (__fields__ pixels_row), converted) /\
    (__fields__ pixels_row = image_fields ->
       getattr pixels_row "origin" = Return (VStr (default "" None)) /\
       getattr pixels_row "height" = Return (VInt height) /\
       getattr pixels_row "width" = Return (VInt width) /\
       getattr pixels_row "nChannels" = Return (VInt nChannels) /\
       getattr pixels_row "mode" = Return (VInt mode) /\
       getattr pixels_row "data" = Return (VBytes data)).
Proof.
  apply (@toImage_field_order (counting_engine true) Z _
           pixels None (started true) converted pixels_row).
  vm_compute. reflexivity.
Defined.

Lemma toImage_default_origin_witness :
  values pixels_row !! 0%nat = Some (VStr "") /\
  (__fields__ pixels_row = image_fields ->
   getattr pixels_row "origin" = Return (VStr "")).
Proof.
  apply (@toImage_default_origin (counting_engine true) Z _
           pixels (started true) converted pixels_row).
  vm_compute. reflexivity.
Defined.

(** ** The module without its engine *)

(** With no active context, or with an engine that fails, the Encoding
    Map cannot be read, and [toImage] raises what that read raises before
    it looks at the channel count. *)
Example toImage_without_context :
  @toImage (counting_engine true) Z _ two_channels None idle
  = (Raise (AttributeError "_jvm"), idle).
Proof. reflexivity. Qed.

Example toImage_engine_down :
  @toImage (counting_engine false) Z _ two_channels None (started false)
  = (Raise (EngineError "Py4JNetworkError"),
     (@ocvTypes (counting_engine false) (started false)).2).
Proof. reflexivity. Qed.

(** Two reads of the Encoding Map reach the counting engine once. *)
Example ocvTypes_fetched_once :
  _active_spark_context (@ocvTypes (counting_engine true) fetched).2
  = Some 1%nat /\
  gateway_log (@ocvTypes (counting_engine true) fetched).2 = [call_ocvTypes].
Proof. split; reflexivity. Qed.

(** On the failing engine every read calls it again. *)
Example ocvTypes_retried :
  gateway_log
    (@ocvTypes (counting_engine false)
       (@ocvTypes (counting_engine false) (started false)).2).2
  = [call_ocvTypes; call_ocvTypes].
Proof. reflexivity. Qed.

(** * Further properties of the module *)

(** ** More on rows read as arrays *)

Lemma peek_seqZ_take (buffer : list Z) (n : nat) :
  (n <= length buffer)%nat ->
  np.peek buffer <$> seqZ 0 (Z.of_nat n) = Some <$> take n buffer.
Proof.
  intros Hn.
  rewrite <- (peek_seqZ (take n buffer)), length_take_le by assumption.
  apply list_fmap_ext. intros i x Hx.
  apply lookup_seqZ in Hx as [-> Hi]. unfold np.peek.
  destruct (Z.ltb_spec (0 + Z.of_nat i) 0) as [?|_]; [lia|].
  replace (Z.to_nat (0 + Z.of_nat i)) with i by lia.
  symmetry. apply lookup_take_lt. lia.
Qed.

(** X1: of a row whose height, width and nChannels are non-negative
    32-bit integers and whose data is at least as long as they need,
    [toNDArray] returns an array whose contents are the first height *
    width * nChannels bytes of the data, in their order; the bytes
    beyond are not part of it. *)
Theorem toNDArray_shows_leading_bytes
    (image : Row) (h w c : Z) (data : list Z) :
  getattr image "height" = Return (VInt h) ->
  getattr image "width" = Return (VInt w) ->
  getattr image "nChannels" = Return (VInt c) ->
  getattr image "data" = Return (VBytes data) ->
  0 <= h < 2 ^ 31 -> 0 <= w < 2 ^ 31 -> 0 <= c < 2 ^ 31 ->
  Z.of_nat (length data) < 2 ^ 63 ->
  h * w * c <= Z.of_nat (length data) ->
  exists view,
    toNDArray image = Return view /\
    np.v_shape view = [h; w; c] /\
    np.contents view
    = Some (np.mk_ndarray [h; w; c] (take (Z.to_nat (h * w * c)) data)).
Proof.
  intros Hh Hw Hc Hd [Hh0 _] [Hw0 _] [Hc0 _] _ Hlen.
  exists (np.mk_view [h; w; c] [w * c; c; 1] data).
  split; [|split; [reflexivity|]].
  - rewrite (toNDArray_fields image h w c data) by assumption.
    apply ndarray_uint8_accepts; assumption.
  - unfold np.contents, np.tolist. simpl np.v_shape.
    simpl np.v_strides. simpl np.v_buffer.
    replace [w * c; c; 1] with (c_strides [h; w; c])
      by (simpl; repeat f_equal; lia).
    rewrite gather_c_contiguous by (repeat constructor; assumption).
    replace (np.size_of [h; w; c]) with (Z.of_nat (Z.to_nat (h * w * c)))
      by (simpl; nia).
    rewrite peek_seqZ_take by nia.
    rewrite mapM_fmap_Some by done. reflexivity.
Qed.

Lemma toNDArray_shows_leading_bytes_witness :
  exists view,
    toNDArray long_row = Return view /\
    np.v_shape view = [1; 2; 1] /\
    np.contents view
    = Some (np.mk_ndarray [1; 2; 1] (take (Z.to_nat (1 * 2 * 1)) [1; 2; 3; 4])).
Proof.
  apply (toNDArray_shows_leading_bytes long_row 1 2 1 [1; 2; 3; 4]);
    first [reflexivity | simpl; lia].
Defined.

(** X2: a row one of whose dimensions is negative never becomes an
    array: [toNDArray] raises a ValueError on it, whatever its data. *)
Theorem toNDArray_negative_dimension
    (image : Row) (h w c : Z) (data : list Z) :
  getattr image "height" = Return (VInt h) ->
  getattr image "width" = Return (VInt w) ->
  getattr image "nChannels" = Return (VInt c) ->
  getattr image "data" = Return (VBytes data) ->
  h < 0 \/ w < 0 \/ c < 0 ->
  exists msg, toNDArray image = Raise (ValueError msg).
Proof.
  intros Hh Hw Hc Hd Hneg.
  rewrite (toNDArray_fields image h w c data) by assumption.
  unfold np.ndarray_uint8.
  change (negb (Nat.eqb (length [w * c; c; 1]) (length [h; w; c]))) with false.
  cbv iota.
  destruct (np.CheckStrides 1 (Z.of_nat (length data)) 0 [h; w; c] [w * c; c; 1]);
    simpl negb; cbv iota; [|eexists; reflexivity].
  assert (Hsome : existsb (fun d => d <? 0) [h; w; c] = true).
  { simpl. destruct (Z.ltb_spec h 0); [reflexivity|].
    destruct (Z.ltb_spec w 0); [reflexivity|].
    destruct (Z.ltb_spec c 0); [reflexivity|]. lia. }
  rewrite Hsome. eexists; reflexivity.
Qed.

Lemma toNDArray_negative_dimension_witness :
  exists msg, toNDArray undefined_row = Raise (ValueError msg).
Proof.
  apply (toNDArray_negative_dimension undefined_row (-1) (-1) (-1) []);
    first [reflexivity | lia].
Defined.

(** ** More on the cache and the gateway *)

Section Gateway.
Context {engine : Engine}.

(** What a read of a field adds to the gateway log. *)
Lemma read_log (f : metadata) (w w' : world) (r : outcome (value_of f)) :
  read f w = (r, w') ->
  exists calls,
    gateway_log w' = (gateway_log w ++ calls)%list /\
    (calls = [] \/ calls = [first_call f] \/
     (f = Schema /\ calls = [call_imageSchema; call_json])).
Proof.
  destruct f; simpl; intros Hr;
    [unfold imageSchema in Hr|unfold ocvTypes in Hr
    |unfold imageFields in Hr|unfold undefinedImageType in Hr];
    run_in Hr;
    first [ exists []; rewrite app_nil_r; auto; fail
          | eexists; split; [reflexivity|]; auto; fail
          | eexists; split; [rewrite <- app_assoc; reflexivity|]; auto ].
Qed.

(** A read of a field leaves the three other fields as they are, however
    it ends. *)
Lemma read_frame (f g : metadata) (w w' : world) (r : outcome (value_of f)) :
  read f w = (r, w') -> g <> f ->
  slot g (ImageSchema w') = slot g (ImageSchema w).
Proof.
  intros Hr Hg. destruct (slot f (ImageSchema w)) as [v|] eqn:Hslot.
  - rewrite (read_cached f w v Hslot) in Hr. inversion Hr; subst. reflexivity.
  - pose proof (read_unset f w w' r Hslot Hr) as Hu. destruct r as [v|e].
    + destruct Hu as (_ & Hothers & _). apply Hothers, Hg.
    + destruct Hu as [-> _]. reflexivity.
Qed.

(** A read of one field asks the engine nothing about another field that
    is cached, nor about its own once that is cached. *)
Lemma read_quiet (f g : metadata) (w w' : world)
    (v : value_of f) (r : outcome (value_of g)) :
  slot f (ImageSchema w) = Some v ->
  read g w = (r, w') ->
  exists calls,
    gateway_log w' = (gateway_log w ++ calls)%list /\ first_call f ∉ calls.
Proof.
  intros Hslot Hr.
  assert (Hdec : g = f \/ g <> f)
    by (destruct f, g; first [left; reflexivity | right; discriminate]).
  destruct Hdec as [->|Hne].
  - rewrite (read_cached f w v Hslot) in Hr. inversion Hr; subst.
    exists []. rewrite app_nil_r. split; [reflexivity|apply not_elem_of_nil].
  - destruct (read_log g w w' r Hr) as (calls & Hlog & Hcalls).
    exists calls. split; [assumption|].
    destruct Hcalls as [->|[->|[-> ->]]].
    + apply not_elem_of_nil.
    + rewrite list_elem_of_singleton. destruct f, g; simpl; congruence.
    + rewrite !not_elem_of_cons. destruct f; simpl;
        repeat split; try discriminate; try apply not_elem_of_nil; congruence.
Qed.

(** The calls of a read, none of them when the field is cached. *)
Lemma read_calls (f : metadata) (w w' : world) (r : outcome (value_of f)) :
  read f w = (r, w') ->
  exists calls,
    gateway_log w' = (gateway_log w ++ calls)%list /\
    ((calls = [] \/ calls = [first_call f]) \/
     (f = Schema /\ calls = [call_imageSchema; call_json])) /\
    (is_Some (slot f (ImageSchema w)) -> calls = []).
Proof.
  intros Hr. destruct (slot f (ImageSchema w)) as [v|] eqn:Hslot.
  - rewrite (read_cached f w v Hslot) in Hr. inversion Hr; subst.
    exists []. rewrite app_nil_r. auto.
  - destruct (read_log f w w' r Hr) as (calls & Hlog & Hcalls).
    exists calls. split; [assumption|]. split.
    + destruct Hcalls as [?|[?|?]]; auto.
    + intros [v Hv]. discriminate.
Qed.

End Gateway.

(** ** More on arrays made into rows *)

Section MoreToImage.
Context {engine : Engine} {T : Type} `{np.Dtype T}.

(** A failed conversion, read backwards. *)
Lemma toImage_Raise (array : np.ndarray T) (origin : option string)
    (w0 w' : world) (e : exn) :
  toImage array origin w0 = (Raise e, w') ->
  (np.ndim array <> 3%nat /\ e = ValueError "Invalid array shape" /\ w' = w0) \/
  exists h w c,
    np.shape array = [h; w; c] /\
    (ocvTypes w0 = (Raise e, w') \/
     (exists types,
        ocvTypes w0 = (Return types, w') /\
        c <> 1 /\ c <> 3 /\ c <> 4 /\
        e = ValueError "Invalid number of channels") \/
     (exists types name,
        ocvTypes w0 = (Return types, w') /\
        entry_for c name /\ types !! name = None /\ e = KeyError name) \/
     (exists types w1 name mode,
        ocvTypes w0 = (Return types, w1) /\
        entry_for c name /\ types !! name = Some mode /\
        imageFields w1 = (Raise e, w'))).
Proof.
  unfold toImage. cbv zeta.
  destruct (Nat.eqb_spec (np.ndim array) 3) as [Hndim|Hndim]; simpl negb; cbv iota.
  2:{ intros Hrun. inversion Hrun. left. auto. }
  unfold np.ndim in Hndim.
  destruct (np.shape array) as [|h [|w [|c [|]]]]; try discriminate Hndim.
  intros Hrun. right. exists h, w, c. split; [reflexivity|].
  apply bind_inv in Hrun as [(types & w1 & Htypes & Hrun)|(e' & Hraise & He)].
  2:{ inversion He; subst e'. left. assumption. }
  right.
  apply bind_inv in Hrun as [(mode & w1' & Hmode & Hrun)|(e' & Hraise & He)].
  - right. right.
    apply bind_inv in Hrun as [(fields & w2 & _ & Hrun)|(e' & Hraise & He)];
      [discriminate|]. inversion He; subst e'.
    assert (Hentry : exists name,
              entry_for c name /\ types !! name = Some mode /\ w1' = w1).
    { unfold entry_for.
      destruct (Z.eqb_spec c 1) as [->|_];
        [|destruct (Z.eqb_spec c 3) as [->|_];
          [|destruct (Z.eqb_spec c 4) as [->|_]; [|discriminate]]];
        apply getitem_inv in Hmode as [-> Hlookup];
        [exists "CV_8UC1"|exists "CV_8UC3"|exists "CV_8UC4"];
        (destruct (types !! _) as [v|]; [|discriminate]);
        inversion Hlookup; auto 10. }
    destruct Hentry as (name & Hname & Hlookup & ->).
    exists types, w1, name, mode. auto.
  - inversion He; subst e'. clear He.
    unfold entry_for.
    destruct (Z.eqb_spec c 1) as [->|H1].
    { apply getitem_inv in Hraise as [-> Hlookup]. right. left.
      exists types, "CV_8UC1".
      destruct (types !! "CV_8UC1"); [discriminate|].
      inversion Hlookup. auto 10. }
    destruct (Z.eqb_spec c 3) as [->|H3].
    { apply getitem_inv in Hraise as [-> Hlookup]. right. left.
      exists types, "CV_8UC3".
      destruct (types !! "CV_8UC3"); [discriminate|].
      inversion Hlookup. auto 10. }
    destruct (Z.eqb_spec c 4) as [->|H4].
    { apply getitem_inv in Hraise as [-> Hlookup]. right. left.
      exists types, "CV_8UC4".
      destruct (types !! "CV_8UC4"); [discriminate|].
      inversion Hlookup. auto 10. }
    inversion Hraise; subst. left. exists types. auto.
Qed.

(** The reads a conversion has made by the time it ends. *)
Lemma toImage_path (array : np.ndarray T) (origin : option string)
    (w0 w' : world) (r : outcome Row) :
  toImage array origin w0 = (r, w') ->
  w' = w0 \/
  (exists r1, ocvTypes w0 = (r1, w')) \/
  (exists types w1 r2,
     ocvTypes w0 = (Return types, w1) /\ imageFields w1 = (r2, w')).
Proof.
  intros Hrun. destruct r as [row|e].
  - apply toImage_Return in Hrun
      as (h & w & c & types & w1 & name & mode & fields
          & _ & Htypes & _ & _ & Hfields & _).
    right. right. eauto.
  - apply toImage_Raise in Hrun
      as [(_ & _ & ->)|(h & w & c & _ & [Hr|[Hr|[Hr|Hr]]])].
    + left. reflexivity.
    + right. left. eauto.
    + destruct Hr as (types & Htypes & _). right. left. eauto.
    + destruct Hr as (types & name & Htypes & _). right. left. eauto.
    + destruct Hr as (types & w1 & name & mode & Htypes & _ & _ & Hfields).
      right. right. eauto.
Qed.

(** With both lists cached a conversion leaves the process as it is. *)
Lemma toImage_cached (array : np.ndarray T) (origin : option string)
    (w : world) (types : gmap string Z) (fields : list string) :
  _ocvTypes (ImageSchema w) = Some types ->
  _imageFields (ImageSchema w) = Some fields ->
  (toImage array origin w).2 = w.
Proof.
  intros Htypes Hfields.
  pose proof (read_cached EncodingMap w types Htypes) as Hread1.
  pose proof (read_cached FieldNames w fields Hfields) as Hread2.
  simpl in Hread1, Hread2.
  destruct (toImage array origin w) as [r w'] eqn:Hrun. simpl.
  apply toImage_path in Hrun as [->|[(r1 & Hr1)|(types' & w1 & r2 & Hr1 & Hr2)]].
  - reflexivity.
  - rewrite Hread1 in Hr1. inversion Hr1. reflexivity.
  - rewrite Hread1 in Hr1. inversion Hr1; subst.
    rewrite Hread2 in Hr2. inversion Hr2. reflexivity.
Qed.

End MoreToImage.

Section ToImageExtras.
Context {engine : Engine} {T : Type} `{np.Dtype T}.

(** X3: on an array whose items [astype(np.uint8)] casts without fail,
    [toImage] raises nothing but its two ValueErrors, a KeyError for one
    of the three encoding names, the AttributeError of a missing Spark
    context, and the errors of the engine. *)
Theorem toImage_raises_only
    (array : np.ndarray T) (origin : option string) (w0 w' : world) (e : exn) :
  toImage array origin w0 = (Raise e, w') ->
  e = ValueError "Invalid array shape" \/
  e = ValueError "Invalid number of channels" \/
  e = KeyError "CV_8UC1" \/ e = KeyError "CV_8UC3" \/ e = KeyError "CV_8UC4" \/
  e = AttributeError "_jvm" \/
  exists what, e = EngineError what.
Proof.
  intros Hrun.
  apply toImage_Raise in Hrun
    as [(_ & -> & _)|(h & w & c & _ & [Hr|[Hr|[Hr|Hr]]])].
  - auto.
  - destruct (read_Raise EncodingMap _ _ _ ltac:(discriminate) Hr)
      as [->|[what ->]]; eauto 10.
  - destruct Hr as (types & _ & _ & _ & _ & ->). auto.
  - destruct Hr as (types & name & _ & Hname & _ & ->).
    destruct Hname as [[_ ->]|[[_ ->]|[_ ->]]]; auto 10.
  - destruct Hr as (types & w1 & name & mode & _ & _ & _ & Hr).
    destruct (read_Raise FieldNames _ _ _ ltac:(discriminate) Hr)
      as [->|[what ->]]; eauto 10.
Qed.

(** X4: when the Encoding Map that is served lacks the entry for the
    array's channel count, [toImage] raises KeyError with the name of
    that entry, and the field names are not read. *)
Theorem toImage_missing_entry
    (array : np.ndarray T) (origin : option string) (h w c : Z)
    (w0 w1 : world) (types : gmap string Z) (name : string) :
  np.shape array = [h; w; c] ->
  entry_for c name ->
  ocvTypes w0 = (Return types, w1) ->
  types !! name = None ->
  toImage array origin w0 = (Raise (KeyError name), w1).
Proof.
  intros Hshape Hname Htypes Hlookup.
  unfold toImage, np.ndim. cbv zeta. rewrite Hshape.
  change (negb (length [h; w; c] =? 3)%nat) with false. cbv iota.
  rewrite (bind_Return _ _ _ _ _ Htypes).
  apply bind_Raise.
  destruct Hname as [[-> ->]|[[-> ->]|[-> ->]]]; simpl;
    unfold getitem; rewrite Hlookup; reflexivity.
Qed.

(** X5: an error of the read of the Encoding Map or of the field names
    leaves [toImage] as it is, with the state that read had reached. *)
Theorem toImage_passes_read_errors
    (array : np.ndarray T) (origin : option string) (h w c : Z) (w0 : world) :
  np.shape array = [h; w; c] ->
  (forall e w1,
     ocvTypes w0 = (Raise e, w1) ->
     toImage array origin w0 = (Raise e, w1)) /\
  (forall types w1 name mode e w2,
     ocvTypes w0 = (Return types, w1) ->
     entry_for c name -> types !! name = Some mode ->
     imageFields w1 = (Raise e, w2) ->
     toImage array origin w0 = (Raise e, w2)).
Proof.
  intros Hshape. split.
  - intros e w1 Htypes.
    unfold toImage, np.ndim. cbv zeta. rewrite Hshape.
    change (negb (length [h; w; c] =? 3)%nat) with false. cbv iota.
    apply bind_Raise, Htypes.
  - intros types w1 name mode e w2 Htypes Hname Hlookup Hfields.
    unfold toImage, np.ndim. cbv zeta. rewrite Hshape.
    change (negb (length [h; w; c] =? 3)%nat) with false. cbv iota.
    rewrite (bind_Return _ _ _ _ _ Htypes).
    assert (Hmode :
      (if c =? 1 then getitem types "CV_8UC1"
       else if c =? 3 then getitem types "CV_8UC3"
       else if c =? 4 then getitem types "CV_8UC4"
       else raise (ValueError "Invalid number of channels")) w1
      = (Return mode, w1)).
    { destruct Hname as [[-> ->]|[[-> ->]|[-> ->]]]; simpl;
        unfold getitem; rewrite Hlookup; reflexivity. }
    rewrite (bind_Return _ _ _ _ _ Hmode).
    apply bind_Raise, Hfields.
Qed.

(** X6: a conversion that fails on the channel count has read the
    Encoding Map all the same: the map is cached in the state the failure
    leaves, and the field names are as they were. *)
Theorem toImage_bad_channels_caches_map
    (array : np.ndarray T) (origin : option string) (w0 w' : world) :
  toImage array origin w0
  = (Raise (ValueError "Invalid number of channels"), w') ->
  (exists types,
     ocvTypes w0 = (Return types, w') /\
     _ocvTypes (ImageSchema w') = Some types) /\
  _imageFields (ImageSchema w') = _imageFields (ImageSchema w0).
Proof.
  intros Hrun.
  apply toImage_Raise in Hrun
    as [(_ & Hmsg & _)|(h & w & c & _ & [Hr|[Hr|[Hr|Hr]]])].
  - discriminate.
  - destruct (read_Raise EncodingMap _ _ _ ltac:(discriminate) Hr)
      as [?|[? ?]]; discriminate.
  - destruct Hr as (types & Htypes & _). split.
    + exists types. split; [assumption|].
      apply (read_Return EncodingMap w0). assumption.
    + apply (read_frame EncodingMap FieldNames w0 w' _ Htypes). discriminate.
  - destruct Hr as (types & name & _ & _ & _ & ?). discriminate.
  - destruct Hr as (types & w1 & name & mode & _ & _ & _ & Hr).
    destruct (read_Raise FieldNames _ _ _ ltac:(discriminate) Hr)
      as [?|[? ?]]; discriminate.
Qed.

(** X7: an explicit origin is stored in the row as it is given. *)
Theorem toImage_keeps_origin
    (array : np.ndarray T) (origin : string) (w0 w2 : world) (row : Row) :
  toImage array (Some origin) w0 = (Return row, w2) ->
  values row !! 0%nat = Some (VStr origin) /\
  (__fields__ row = image_fields ->
   getattr row "origin" = Return (VStr origin)).
Proof.
  intros Hrun.
  apply toImage_Return in Hrun
    as (h & w & c & types & w1 & name & mode & fields
        & _ & _ & _ & _ & _ & ->).
  split; [reflexivity|]. simpl. intros ->. reflexivity.
Qed.

(** X8: whatever its result, [toImage] leaves the cached schema and the
    cached undefined-image marker as they are, and it calls the engine at
    most twice: once for the Encoding Map and once for the field names,
    in that order, and for neither of them when it is cached. *)
Theorem toImage_footprint
    (array : np.ndarray T) (origin : option string) (w : world) :
  _imageSchema (ImageSchema (toImage array origin w).2)
  = _imageSchema (ImageSchema w) /\
  _undefinedImageType (ImageSchema (toImage array origin w).2)
  = _undefinedImageType (ImageSchema w) /\
  exists calls,
    gateway_log (toImage array origin w).2 = (gateway_log w ++ calls)%list /\
    (calls = [] \/ calls = [call_ocvTypes] \/ calls = [call_imageFields] \/
     calls = [call_ocvTypes; call_imageFields]) /\
    (is_Some (_ocvTypes (ImageSchema w)) -> call_ocvTypes ∉ calls) /\
    (is_Some (_imageFields (ImageSchema w)) -> call_imageFields ∉ calls).
Proof.
  destruct (toImage array origin w) as [r w'] eqn:Hrun. simpl.
  apply toImage_path in Hrun as [->|[(r1 & Hr1)|(types & w1 & r2 & Hr1 & Hr2)]].
  - split; [reflexivity|]. split; [reflexivity|].
    exists []. rewrite app_nil_r.
    repeat split; auto using not_elem_of_nil.
  - split; [apply (read_frame EncodingMap Schema _ _ _ Hr1); discriminate|].
    split; [apply (read_frame EncodingMap UndefinedMarker _ _ _ Hr1); discriminate|].
    destruct (read_calls EncodingMap _ _ _ Hr1) as (calls & Hlog & Hcalls & Hnone).
    exists calls. split; [assumption|].
    destruct Hcalls as [[Hc|Hc]|[? _]]; [subst calls|subst calls|discriminate].
    + repeat split; auto using not_elem_of_nil.
    + split; [auto|]. split.
      * intros Hsome. specialize (Hnone Hsome). discriminate.
      * intros _. rewrite list_elem_of_singleton. discriminate.
  - split.
    { transitivity (_imageSchema (ImageSchema w1)).
      - apply (read_frame FieldNames Schema _ _ _ Hr2). discriminate.
      - apply (read_frame EncodingMap Schema _ _ _ Hr1). discriminate. }
    split.
    { transitivity (_undefinedImageType (ImageSchema w1)).
      - apply (read_frame FieldNames UndefinedMarker _ _ _ Hr2). discriminate.
      - apply (read_frame EncodingMap UndefinedMarker _ _ _ Hr1). discriminate. }
    destruct (read_calls EncodingMap _ _ _ Hr1) as (calls1 & Hlog1 & Hcalls1 & Hnone1).
    destruct (read_calls FieldNames _ _ _ Hr2) as (calls2 & Hlog2 & Hcalls2 & Hnone2).
    assert (Hkept : _imageFields (ImageSchema w1) = _imageFields (ImageSchema w))
      by (apply (read_frame EncodingMap FieldNames _ _ _ Hr1); discriminate).
    simpl in Hnone1, Hnone2. rewrite Hkept in Hnone2.
    exists (calls1 ++ calls2)%list.
    split; [rewrite Hlog2, Hlog1, app_assoc; reflexivity|].
    destruct Hcalls1 as [[Hc1|Hc1]|[? _]];
      [subst calls1|subst calls1|discriminate];
      (destruct Hcalls2 as [[Hc2|Hc2]|[? _]];
         [subst calls2|subst calls2|discriminate]);
      simpl; (split; [auto|]); split; intros Hsome;
      try (specialize (Hnone1 Hsome); discriminate);
      try (specialize (Hnone2 Hsome); discriminate);
      rewrite ?not_elem_of_cons; repeat split;
      try discriminate; apply not_elem_of_nil.
Qed.

End ToImageExtras.

(** ** Whole runs of a process *)

Section Runs.
Context {engine : Engine}.

(** X9: once [toImage] has returned a row, the Encoding Map and the
    field names are cached: the same conversion returns the same row
    again, and no later conversion of any array changes the process or
    calls the engine. *)
Theorem toImage_second_run_is_silent
    {T : Type} `{np.Dtype T}
    (array : np.ndarray T) (origin : option string) (w0 w2 : world) (row : Row) :
  toImage array origin w0 = (Return row, w2) ->
  toImage array origin w2 = (Return row, w2) /\
  forall (T' : Type) (D' : np.Dtype T') (array' : np.ndarray T') origin',
    (toImage array' origin' w2).2 = w2.
Proof.
  intros Hrun.
  apply toImage_Return in Hrun
    as (h & w & c & types & w1 & name & mode & fields
        & Hshape & Htypes & Hname & Hlookup & Hfields & ->).
  assert (Hfields2 : _imageFields (ImageSchema w2) = Some fields)
    by apply (read_Return FieldNames w1 w2 fields Hfields).
  assert (Htypes2 : _ocvTypes (ImageSchema w2) = Some types).
  { apply (proj2 (stable_read FieldNames w1 _ w2 Hfields) EncodingMap).
    apply (read_Return EncodingMap w0 w1 types Htypes). }
  split.
  - apply (toImage_run array origin w2 w2 w2 h w c mode types name fields);
      try assumption.
    + apply (read_cached EncodingMap w2 types Htypes2).
    + apply (read_cached FieldNames w2 fields Hfields2).
  - intros T' D' array' origin'.
    apply (toImage_cached array' origin' w2 types fields); assumption.
Qed.

Lemma step_quiet (f : metadata) (v : value_of f) (w w' : world) :
  slot f (ImageSchema w) = Some v ->
  step w w' ->
  exists calls,
    gateway_log w' = (gateway_log w ++ calls)%list /\ first_call f ∉ calls.
Proof.
  intros Hslot Hstep.
  assert (Hnone : exists calls,
            gateway_log w = (gateway_log w ++ calls)%list /\ first_call f ∉ calls).
  { exists []. rewrite app_nil_r. split; [reflexivity|apply not_elem_of_nil]. }
  destruct Hstep as [w|w|w|w|T D array origin w|p r n d s w|w|ctx w];
    simpl; try assumption.
  - apply (read_quiet f Schema w _ v (imageSchema w).1 Hslot).
    apply surjective_pairing.
  - apply (read_quiet f EncodingMap w _ v (ocvTypes w).1 Hslot).
    apply surjective_pairing.
  - apply (read_quiet f FieldNames w _ v (imageFields w).1 Hslot).
    apply surjective_pairing.
  - apply (read_quiet f UndefinedMarker w _ v (undefinedImageType w).1 Hslot).
    apply surjective_pairing.
  - destruct (toImage array origin w) as [r0 w'] eqn:Hrun. simpl.
    apply toImage_path in Hrun
      as [->|[(r1 & Hr1)|(types & w1 & r2 & Hr1 & Hr2)]].
    + assumption.
    + apply (read_quiet f EncodingMap w w' v r1 Hslot Hr1).
    + destruct (read_quiet f EncodingMap w w1 v _ Hslot Hr1)
        as (calls1 & Hlog1 & Hnot1).
      assert (Hslot1 : slot f (ImageSchema w1) = Some v)
        by (apply (proj2 (stable_read EncodingMap w _ w1 Hr1)); assumption).
      destruct (read_quiet f FieldNames w1 w' v _ Hslot1 Hr2)
        as (calls2 & Hlog2 & Hnot2).
      exists (calls1 ++ calls2)%list.
      split; [rewrite Hlog2, Hlog1, app_assoc; reflexivity|].
      rewrite not_elem_of_app. auto.
  - destruct (readImages p r n d s w) as [r0 w'] eqn:Hrun. simpl.
    apply readImages_inv in Hrun as (_ & _ & Hctx).
    destruct (_active_spark_context w).
    + exists [call_readImages]. split; [assumption|].
      rewrite list_elem_of_singleton. destruct f; discriminate.
    + destruct Hctx as [-> _]. assumption.
Qed.

(** X10: from the moment a metadata field is cached, no use of the module
    whatever asks the engine for it again: the gateway log only grows, and
    by no fetch of that field. *)
Theorem cached_field_never_fetched_again
    (f : metadata) (v : value_of f) (w w' : world) :
  slot f (ImageSchema w) = Some v ->
  rtc step w w' ->
  exists calls,
    gateway_log w' = (gateway_log w ++ calls)%list /\ first_call f ∉ calls.
Proof.
  intros Hslot Hsteps. revert Hslot.
  induction Hsteps as [w|w w1 w2 Hstep _ IH]; intros Hslot.
  - exists []. rewrite app_nil_r. split; [reflexivity|apply not_elem_of_nil].
  - destruct (step_quiet f v w w1 Hslot Hstep) as (calls1 & Hlog1 & Hnot1).
    destruct IH as (calls2 & Hlog2 & Hnot2).
    { apply (proj2 (step_stable w w1 Hstep)). assumption. }
    exists (calls1 ++ calls2)%list.
    split; [rewrite Hlog2, Hlog1, app_assoc; reflexivity|].
    rewrite not_elem_of_app. auto.
Qed.

(** X11: [readImages] writes nothing of the singleton and reads
    nothing of it: whatever it returns or raises, the four cached fields
    and the binding of [__init__] are as before, and its result, the
    context and the gateway log it leaves are the same whatever the
    fields hold. With no active Spark context it raises AttributeError
    on [_jsc] and the process is as it was. *)
Theorem readImages_leaves_singleton
    (path : string) (recursive : bool) (numPartitions : Z)
    (dropImageFailures : bool) (sampleRatio : Float) (w : world) :
  ImageSchema
    (readImages path recursive numPartitions dropImageFailures sampleRatio w).2
  = ImageSchema w /\
  _ImageSchema__init__
    (readImages path recursive numPartitions dropImageFailures sampleRatio w).2
  = _ImageSchema__init__ w /\
  (forall cache : _ImageSchema,
     readImages path recursive numPartitions dropImageFailures sampleRatio
       (mk_world (_active_spark_context w) cache
                 (_ImageSchema__init__ w) (gateway_log w))
     = ((readImages path recursive numPartitions dropImageFailures
           sampleRatio w).1,
        mk_world
          (_active_spark_context
             (readImages path recursive numPartitions dropImageFailures
                sampleRatio w).2)
          cache (_ImageSchema__init__ w)
          (gateway_log
             (readImages path recursive numPartitions dropImageFailures
                sampleRatio w).2))) /\
  (_active_spark_context w = None ->
   readImages path recursive numPartitions dropImageFailures sampleRatio w
   = (Raise (AttributeError "_jsc"), w)).
Proof.
  split; [|split; [|split]].
  - destruct (readImages path recursive numPartitions dropImageFailures
                sampleRatio w) as [r w'] eqn:Hrun. simpl.
    apply readImages_inv in Hrun as (Hsame & _). assumption.
  - destruct (readImages path recursive numPartitions dropImageFailures
                sampleRatio w) as [r w'] eqn:Hrun. simpl.
    apply readImages_inv in Hrun as (_ & Hinit & _). assumption.
  - intros cache. unfold readImages, py4j. simpl.
    destruct (_active_spark_context w) as [j|] eqn:Hctx;
      [|simpl; rewrite Hctx; reflexivity].
    destruct (jvm_readImages path recursive numPartitions dropImageFailures
                sampleRatio j) as [[a|what] j']; reflexivity.
  - intros Hnone. unfold readImages. rewrite Hnone. reflexivity.
Qed.

End Runs.

(** ** Round trips of bytes *)

Lemma to_uint8_bytes (items : list Z) :
  byte_valued items -> np.to_uint8 <$> items = items.
Proof.
  intros Hbytes. rewrite <- (list_fmap_id items) at 2.
  apply Forall_fmap_ext. eapply Forall_impl; [exact Hbytes|].
  intros x Hx. simpl. apply Z.mod_small. assumption.
Qed.

Section ByteRoundTrips.
Context {engine : Engine}.

(** X12: an array of integers that are bytes already comes back from
    [toImage] and [toNDArray] as it went in, items and shape. *)
Theorem byte_array_round_trip
    (A : np.ndarray Z) (origin : option string) (h w c : Z)
    (w0 w1 w2 : world) (types : gmap string Z) (name : string) (mode : Z) :
  np.well_formed A ->
  byte_valued (np.items A) ->
  np.shape A = [h; w; c] ->
  entry_for c name ->
  ocvTypes w0 = (Return types, w1) ->
  types !! name = Some mode ->
  imageFields w1 = (Return image_fields, w2) ->
  exists row view,
    toImage A origin w0 = (Return row, w2) /\
    toNDArray row = Return view /\
    np.contents view = Some A.
Proof.
  intros [Hdims Hlen] Hbytes Hshape Hname Htypes Hlookup Hfields.
  destruct A as [dims items]. simpl in *. subst dims.
  apply Forall_cons in Hdims as [Hh Hdims].
  apply Forall_cons in Hdims as [Hw Hdims].
  apply Forall_cons in Hdims as [Hc _].
  simpl in Hlen.
  eexists. exists (np.mk_view [h; w; c] [w * c; c; 1] items).
  split; [exact (toImage_run (np.mk_ndarray [h; w; c] items) origin w0 w1 w2
                   h w c mode types name image_fields eq_refl Htypes Hname
                   Hlookup Hfields)|].
  simpl np.items. rewrite (to_uint8_bytes items Hbytes). split.
  - rewrite (toNDArray_fields _ h w c items) by reflexivity.
    apply ndarray_uint8_accepts; lia.
  - apply contents_c_contiguous; lia.
Qed.

(** X13: a row of the schema whose height, width and nChannels are
    non-negative 32-bit integers, whose data has exactly height * width *
    nChannels bytes and whose mode is the Encoding Map's entry for its
    channel count comes back unchanged when it is read as an array and
    that array is made a row again under the same origin. *)
Theorem row_round_trip
    (origin : string) (h w c : Z) (data : list Z)
    (w0 w1 w2 : world) (types : gmap string Z) (name : string) (mode : Z) :
  0 <= h < 2 ^ 31 -> 0 <= w < 2 ^ 31 -> 0 <= c < 2 ^ 31 ->
  Z.of_nat (length data) = h * w * c ->
  Z.of_nat (length data) < 2 ^ 63 ->
  byte_valued data ->
  entry_for c name ->
  ocvTypes w0 = (Return types, w1) ->
  types !! name = Some mode ->
  imageFields w1 = (Return image_fields, w2) ->
  exists view A,
    toNDArray (_create_row image_fields
                 [VStr origin; VInt h; VInt w; VInt c; VInt mode; VBytes data])
    = Return view /\
    np.contents view = Some A /\
    toImage A (Some origin) w0
    = (Return (_create_row image_fields
                 [VStr origin; VInt h; VInt w; VInt c; VInt mode; VBytes data]),
       w2).
Proof.
  intros [Hh _] [Hw _] [Hc _] Hlen _ Hbytes Hname Htypes Hlookup Hfields.
  exists (np.mk_view [h; w; c] [w * c; c; 1] data),
         (np.mk_ndarray [h; w; c] data).
  split; [|split].
  - rewrite (toNDArray_fields _ h w c data) by reflexivity.
    apply ndarray_uint8_accepts; lia.
  - apply contents_c_contiguous; assumption.
  - rewrite (toImage_run (np.mk_ndarray [h; w; c] data) (Some origin) w0 w1 w2
               h w c mode types name image_fields eq_refl Htypes Hname
               Hlookup Hfields).
    simpl np.items. rewrite (to_uint8_bytes data Hbytes). reflexivity.
Qed.

End ByteRoundTrips.

(** ** The further properties at work on the counting engine *)

Lemma toImage_raises_only_witness :
  ValueError "Invalid number of channels" = ValueError "Invalid array shape" \/
  ValueError "Invalid number of channels"
  = ValueError "Invalid number of channels" \/
  ValueError "Invalid number of channels" = KeyError "CV_8UC1" \/
  ValueError "Invalid number of channels" = KeyError "CV_8UC3" \/
  ValueError "Invalid number of channels" = KeyError "CV_8UC4" \/
  ValueError "Invalid number of channels" = AttributeError "_jvm" \/
  exists what, ValueError "Invalid number of channels" = EngineError what.
Proof.
  apply (@toImage_raises_only (counting_engine true) Z _
           two_channels None (started true) fetched).
  reflexivity.
Defined.

Lemma toImage_missing_entry_witness :
  @toImage (counting_engine true) Z _ pixels None unmapped
  = (Raise (KeyError "CV_8UC1"), unmapped).
Proof.
  apply (@toImage_missing_entry (counting_engine true) Z _
           pixels None 2 2 1 unmapped unmapped ∅ "CV_8UC1").
  - reflexivity.
  - left. split; reflexivity.
  - reflexivity.
  - reflexivity.
Defined.

Lemma toImage_passes_read_errors_witness :
  @toImage (counting_engine false) Z _ two_channels None (started false)
  = (Raise (EngineError "Py4JNetworkError"),
     (@ocvTypes (counting_engine false) (started false)).2).
Proof.
  apply (proj1 (@toImage_passes_read_errors (counting_engine false) Z _
                  two_channels None 1 2 2 (started false) eq_refl)).
  reflexivity.
Defined.

Lemma toImage_bad_channels_caches_map_witness :
  (exists types,
     @ocvTypes (counting_engine true) (started true) = (Return types, fetched) /\
     _ocvTypes (ImageSchema fetched) = Some types) /\
  _imageFields (ImageSchema fetched) = _imageFields (ImageSchema (started true)).
Proof.
  apply (@toImage_bad_channels_caches_map (counting_engine true) Z _
           two_channels None (started true) fetched).
  reflexivity.
Defined.

Lemma toImage_keeps_origin_witness :
  values (_create_row image_fields
            [VStr "file:/kittens/54893.jpg"; VInt 2; VInt 2; VInt 1; VInt 0;
             VBytes [10; 20; 30; 40]]) !! 0%nat
  = Some (VStr "file:/kittens/54893.jpg") /\
  (__fields__ kitten_row = image_fields ->
   getattr kitten_row "origin" = Return (VStr "file:/kittens/54893.jpg")).
Proof.
  apply (@toImage_keeps_origin (counting_engine true) Z _
           kitten "file:/kittens/54893.jpg" (started true) converted kitten_row).
  vm_compute. reflexivity.
Defined.

Lemma toImage_second_run_is_silent_witness :
  @toImage (counting_engine true) Z _ pixels None converted
  = (Return pixels_row, converted) /\
  forall (T' : Type) (D' : np.Dtype T') (array' : np.ndarray T') origin',
    (@toImage (counting_engine true) T' D' array' origin' converted).2
    = converted.
Proof.
  apply (@toImage_second_run_is_silent (counting_engine true) Z _
           pixels None (started true) converted pixels_row).
  vm_compute. reflexivity.
Defined.

Lemma cached_field_never_fetched_again_witness :
  exists calls,
    gateway_log converted = (gateway_log fetched ++ calls)%list /\
    @first_call EncodingMap ∉ calls.
Proof.
  apply (@cached_field_never_fetched_again (counting_engine true)
           EncodingMap engine_ocvTypes fetched converted).
  - reflexivity.
  - apply rtc_once. apply (@step_imageFields (counting_engine true)).
Defined.

Lemma byte_array_round_trip_witness :
  exists row view,
    @toImage (counting_engine true) Z _ kitten None (started true)
    = (Return row, converted) /\
    toNDArray row = Return view /\
    np.contents view = Some kitten.
Proof.
  apply (@byte_array_round_trip (counting_engine true)
           kitten None 2 2 1 (started true) fetched converted
           engine_ocvTypes "CV_8UC1" 0).
  - split; [repeat (constructor; [lia|]); constructor|reflexivity].
  - unfold byte_valued. simpl. repeat (constructor; [lia|]). constructor.
  - reflexivity.
  - left. split; reflexivity.
  - reflexivity.
  - vm_compute. reflexivity.
  - reflexivity.
Defined.

Lemma row_round_trip_witness :
  exists view A,
    toNDArray kitten_row = Return view /\
    np.contents view = Some A /\
    @toImage (counting_engine true) Z _ A (Some "file:/kittens/54893.jpg")
             (started true)
    = (Return kitten_row, converted).
Proof.
  apply (@row_round_trip (counting_engine true)
           "file:/kittens/54893.jpg" 2 2 1 [10; 20; 30; 40]
           (started true) fetched converted engine_ocvTypes "CV_8UC1" 0).
  - lia.
  - lia.
  - lia.
  - reflexivity.
  - simpl. lia.
  - unfold byte_valued. repeat (constructor; [lia|]). constructor.
  - left. split; reflexivity.
  - reflexivity.
  - vm_compute. reflexivity.
  - reflexivity.
Defined.
